(** * F1 dashboard: the data-orchestration and view-state controller

    A shallow embedding of the stateful part of
    [frontend/src/App.jsx] (component [F1Dashboard]): the eleven
    [useState] cells, the asynchronous handlers that fill them from the
    backend, and the render-time projections of that state (the tab list,
    the standings getters, the year options).

    Every [async] handler of the source is cut at its network round trip:
    the part before the first [await] is a command named like the source
    function, the part after it is the command [<name>_resume], which
    receives what the network produced.  Where a handler awaits twice in
    a row ([fetch], then [response.json()]) it touches no state in
    between, and the two waits are one suspension here.  A continuation
    that is waiting for its reply sits in the [inflight] list of the
    world; the browser's event loop is the function [fire], and a world
    is what the component looks like between two of its steps. *)

From Stdlib Require Import String ZArith List Bool Lia DecimalString.
Import ListNotations.
Local Open Scope string_scope.
Local Open Scope Z_scope.

(** ** JSON payloads, as the component reads them *)

(** Numbers spliced into template literals ([`${year}`]). *)
Definition show (n : Z) : string := NilZero.string_of_int (Z.to_int n).

(** [a || d] where [a] is a possibly absent string: the empty string is
    falsy, like [undefined] and [null]. *)
Definition or_default (a : option string) (d : string) : string :=
  match a with
  | Some s => if String.eqb s "" then d else s
  | None => d
  end.

(** [a === b] where each side is a string or [undefined] ([None]): two
    strings are compared, [undefined] equals [undefined] only. *)
Definition strict_eq (a b : option string) : bool :=
  match a, b with
  | Some s, Some t => String.eqb s t
  | None, None => true
  | _, _ => false
  end.

Record DriverRow := {
  position : Z;
  full_name : string;
  team_name : string;
  points : Z;
  wins : Z }.

Record ConstructorRow := {
  c_position : Z;
  c_team_name : string;
  c_points : Z;
  c_wins : Z }.

Record RaceMeta := {
  meeting_name : string;
  circuit_short_name : string;
  location : string;
  date_start : string;
  round : Z;
  season : Z }.

Record ResultRow := {
  r_position : Z;
  r_driver_name : string;
  r_team : string;
  r_points : Z;
  r_status : string }.

(** [data.data] of the season snapshot.  The three getters test each
    field for truthiness before use, so each one may be missing. *)
Record F1Data := {
  driver_standings : option (list DriverRow);
  constructor_standings : option (list ConstructorRow);
  latest_race : option RaceMeta;
  race_results : option (list ResultRow) }.

Record Insight := {
  i_type : string;
  i_insight : string;
  i_explanation : option string }.

(** Body of [POST /f1/fetch-data]. *)
Record FetchDataBody := {
  fd_success : bool;
  fd_message : option string;
  fd_data : option F1Data }.

(** Body of [GET /f1/insights]. *)
Record InsightsBody := { ib_insights : list Insight }.

Record Champion := {
  ch_name : string;
  ch_team : string;
  ch_points : Z;
  ch_wins : Z }.

Record SeasonInsights := {
  season_summary : string;
  champion_info : option string }.

(** Body of [GET /f1/historical/{year}]; the whole body is what gets
    cached. *)
Record HistoricalBody := {
  h_success : bool;
  h_message : option string;
  h_year : Z;
  h_champion : option Champion;
  h_insights : option SeasonInsights;
  h_race_count : Z;
  h_races : list RaceMeta }.

(** One element of [files].  [insights] is a serialized list, parsed at
    render time only. *)
Record FileRecord := {
  id : Z;
  filename : string;
  upload_date : string;
  file_type : string;
  insights_json : option string }.

Record FilesBody := { fb_files : list FileRecord }.

Record FileInsight := {
  fi_type : string;
  fi_insight : string;
  fi_details : option string }.

Record Summary := {
  total_rows : Z;
  total_columns : Z;
  columns : list string }.

Record ChartPoint := { cp_name : string; cp_value : Z }.

Record Charts := {
  driver_performance : option (list ChartPoint);
  team_performance : option (list ChartPoint);
  circuit_comparison : option (list ChartPoint) }.

Record Analysis := {
  summary : option Summary;
  a_insights : option (list FileInsight);
  charts : option Charts }.

(** Body of [GET /files/{id}/analyze]; the whole body is what gets
    cached, as soon as its [success] is set.  Nothing else of the body is
    checked before it is stored: [analysis] may be missing (the component
    tests it in [deleteFile] and in the file-analysis panel) and so may
    [filename], which [deleteFile] compares with [===]. *)
Record AnalyzeBody := {
  a_success : bool;
  a_message : option string;
  a_filename : option string;
  analysis : option Analysis }.

Record UploadBody := { u_success : bool }.

(** The browser [File] picked in the upload input. *)
Record File := { file_name : string }.

(** ** The network boundary *)

(** What an [await] produces: a value, or an exception whose
    [err.message] is the string. *)
Inductive Outcome (A : Type) : Type :=
| Resolved (a : A)
| Rejected (message : string).
Arguments Resolved {A} a.
Arguments Rejected {A} message.

(** A [Response]: [response.ok], [response.status], and what
    [await response.json()] gives.  A body that is not an object (so that
    reading a field of it throws) is a rejected [json]. *)
Record Response (A : Type) := {
  ok : bool;
  status : Z;
  json : Outcome A }.
Arguments ok {A} r.
Arguments status {A} r.
Arguments json {A} r.

(** [await fetch(...)] followed by [await response.json()]. *)
Definition Fetched (A : Type) : Type := Outcome (Response A).

Definition body {A} (r : Fetched A) : Outcome A :=
  match r with
  | Resolved resp => json resp
  | Rejected m => Rejected m
  end.

(** The same with the [if (!response.ok) throw ...] of [fetchF1Data] in
    between. *)
Definition checked_body {A} (r : Fetched A) : Outcome A :=
  match r with
  | Resolved resp =>
      if negb (ok resp)
      then Rejected ("HTTP error! status: " ++ show (status resp))
      else json resp
  | Rejected m => Rejected m
  end.

(** A 200 response that decodes to [b], and the fetch that yields it. *)
Definition http_200 {A} (b : A) : Response A :=
  {| ok := true; status := 200; json := Resolved b |}.

Definition replied {A} (b : A) : Fetched A := Resolved (http_200 b).

(** ** Component state: the [useState] cells *)

Record State := {
  activeTab : string;
  f1Data : option F1Data;
  insights : list Insight;
  files : list FileRecord;
  loading : bool;
  error : option string;
  uploadStatus : string;
  selectedYear : Z;
  historicalData : option HistoricalBody;
  selectedFileAnalysis : option AnalyzeBody;
  analyzingFileId : option Z }.

Definition initial_state : State := {|
  activeTab := "standings";
  f1Data := None;
  insights := [];
  files := [];
  loading := false;
  error := None;
  uploadStatus := "";
  selectedYear := 2024;
  historicalData := None;
  selectedFileAnalysis := None;
  analyzingFileId := None |}.

(** ** Effects and suspended handlers *)

Inductive Request :=
| PostFetchData
| GetInsights
| GetHistorical (year : Z)
| GetFiles
| GetAnalyze (fileId : Z)
| PostUpload (file : File)
| DeleteFile (fileId : Z).

(** What a handler does to the outside. *)
Inductive Effect :=
| Fetch (r : Request)
| Alert (message : string)
| ConsoleError (label err : string)
| SetTimeout (ms : Z).

(** A handler suspended at its [await] (or a timer not yet fired).
    [deleteFile] reads [selectedFileAnalysis] and [files] after its
    [await]; those are the values of the render in which the handler was
    created, so the suspended handler carries them. *)
Inductive Pending :=
| AwaitFetchData
| AwaitInsights
| AwaitHistorical (year : Z)
| AwaitFiles
| AwaitAnalyze (fileId : Z)
| AwaitUpload
| AwaitDelete (fileId : Z) (files_seen : list FileRecord)
              (analysis_seen : option AnalyzeBody)
| AwaitTimeout.

Record World := {
  ui : State;
  inflight : list Pending;
  trace : list Effect }.

Definition Cmd : Type := World -> World.

Definition skip : Cmd := fun w => w.
Definition seq (c1 c2 : Cmd) : Cmd := fun w => c2 (c1 w).
Notation "c1 ;; c2" := (seq c1 c2) (at level 61, right associativity).

Definition update (f : State -> State) : Cmd := fun w =>
  {| ui := f (ui w); inflight := inflight w; trace := trace w |}.

Definition emit (e : Effect) : Cmd := fun w =>
  {| ui := ui w; inflight := inflight w; trace := trace w ++ [e] |}.

Definition suspend (p : Pending) : Cmd := fun w =>
  {| ui := ui w; inflight := inflight w ++ [p]; trace := trace w |}.

(** Issue a request and park the rest of the handler. *)
Definition await (r : Request) (p : Pending) : Cmd :=
  emit (Fetch r) ;; suspend p.

Definition alert (m : string) : Cmd := emit (Alert m).
Definition console_error (label err : string) : Cmd :=
  emit (ConsoleError label err).

(** The state setters. *)
Definition setActiveTab (v : string) : Cmd := update (fun s =>
  {| activeTab := v; f1Data := f1Data s; insights := insights s;
     files := files s; loading := loading s; error := error s;
     uploadStatus := uploadStatus s; selectedYear := selectedYear s;
     historicalData := historicalData s;
     selectedFileAnalysis := selectedFileAnalysis s;
     analyzingFileId := analyzingFileId s |}).

Definition setF1Data (v : option F1Data) : Cmd := update (fun s =>
  {| activeTab := activeTab s; f1Data := v; insights := insights s;
     files := files s; loading := loading s; error := error s;
     uploadStatus := uploadStatus s; selectedYear := selectedYear s;
     historicalData := historicalData s;
     selectedFileAnalysis := selectedFileAnalysis s;
     analyzingFileId := analyzingFileId s |}).

Definition setInsights (v : list Insight) : Cmd := update (fun s =>
  {| activeTab := activeTab s; f1Data := f1Data s; insights := v;
     files := files s; loading := loading s; error := error s;
     uploadStatus := uploadStatus s; selectedYear := selectedYear s;
     historicalData := historicalData s;
     selectedFileAnalysis := selectedFileAnalysis s;
     analyzingFileId := analyzingFileId s |}).

Definition setFiles (v : list FileRecord) : Cmd := update (fun s =>
  {| activeTab := activeTab s; f1Data := f1Data s; insights := insights s;
     files := v; loading := loading s; error := error s;
     uploadStatus := uploadStatus s; selectedYear := selectedYear s;
     historicalData := historicalData s;
     selectedFileAnalysis := selectedFileAnalysis s;
     analyzingFileId := analyzingFileId s |}).

Definition setLoading (v : bool) : Cmd := update (fun s =>
  {| activeTab := activeTab s; f1Data := f1Data s; insights := insights s;
     files := files s; loading := v; error := error s;
     uploadStatus := uploadStatus s; selectedYear := selectedYear s;
     historicalData := historicalData s;
     selectedFileAnalysis := selectedFileAnalysis s;
     analyzingFileId := analyzingFileId s |}).

Definition setError (v : option string) : Cmd := update (fun s =>
  {| activeTab := activeTab s; f1Data := f1Data s; insights := insights s;
     files := files s; loading := loading s; error := v;
     uploadStatus := uploadStatus s; selectedYear := selectedYear s;
     historicalData := historicalData s;
     selectedFileAnalysis := selectedFileAnalysis s;
     analyzingFileId := analyzingFileId s |}).

Definition setUploadStatus (v : string) : Cmd := update (fun s =>
  {| activeTab := activeTab s; f1Data := f1Data s; insights := insights s;
     files := files s; loading := loading s; error := error s;
     uploadStatus := v; selectedYear := selectedYear s;
     historicalData := historicalData s;
     selectedFileAnalysis := selectedFileAnalysis s;
     analyzingFileId := analyzingFileId s |}).

Definition setSelectedYear (v : Z) : Cmd := update (fun s =>
  {| activeTab := activeTab s; f1Data := f1Data s; insights := insights s;
     files := files s; loading := loading s; error := error s;
     uploadStatus := uploadStatus s; selectedYear := v;
     historicalData := historicalData s;
     selectedFileAnalysis := selectedFileAnalysis s;
     analyzingFileId := analyzingFileId s |}).

Definition setHistoricalData (v : option HistoricalBody) : Cmd :=
  update (fun s =>
  {| activeTab := activeTab s; f1Data := f1Data s; insights := insights s;
     files := files s; loading := loading s; error := error s;
     uploadStatus := uploadStatus s; selectedYear := selectedYear s;
     historicalData := v;
     selectedFileAnalysis := selectedFileAnalysis s;
     analyzingFileId := analyzingFileId s |}).

Definition setSelectedFileAnalysis (v : option AnalyzeBody) : Cmd :=
  update (fun s =>
  {| activeTab := activeTab s; f1Data := f1Data s; insights := insights s;
     files := files s; loading := loading s; error := error s;
     uploadStatus := uploadStatus s; selectedYear := selectedYear s;
     historicalData := historicalData s;
     selectedFileAnalysis := v;
     analyzingFileId := analyzingFileId s |}).

Definition setAnalyzingFileId (v : option Z) : Cmd := update (fun s =>
  {| activeTab := activeTab s; f1Data := f1Data s; insights := insights s;
     files := files s; loading := loading s; error := error s;
     uploadStatus := uploadStatus s; selectedYear := selectedYear s;
     historicalData := historicalData s;
     selectedFileAnalysis := selectedFileAnalysis s;
     analyzingFileId := v |}).

(** ** The handlers *)

(** [fetchInsights], lines 52-60. *)
Definition fetchInsights : Cmd := await GetInsights AwaitInsights.

Definition fetchInsights_resume (r : Fetched InsightsBody) : Cmd :=
  match body r with
  | Resolved data => setInsights (ib_insights data)
  | Rejected err => console_error "Failed to fetch insights:" err
  end.

(** [fetchF1Data], lines 24-50. *)
Definition fetchF1Data : Cmd :=
  setLoading true ;;
  setError None ;;
  await PostFetchData AwaitFetchData.

Definition fetchF1Data_resume (r : Fetched FetchDataBody) : Cmd :=
  match checked_body r with
  | Resolved data =>
      if fd_success data
      then setF1Data (fd_data data) ;; fetchInsights
      else setError (Some (or_default (fd_message data) "Failed to fetch data"))
  | Rejected err =>
      setError (Some ("Backend connection failed: " ++ err ++
        ". Make sure your backend server is running on port 8000."))
  end ;;
  setLoading false.

(** [fetchHistoricalData], lines 62-80. *)
Definition fetchHistoricalData (year : Z) : Cmd :=
  setLoading true ;;
  setError None ;;
  setHistoricalData None ;;
  await (GetHistorical year) (AwaitHistorical year).

Definition fetchHistoricalData_resume (year : Z)
    (r : Fetched HistoricalBody) : Cmd :=
  match body r with
  | Resolved data =>
      if h_success data
      then setHistoricalData (Some data)
      else setError (Some (or_default (h_message data)
                             ("No data available for " ++ show year)))
  | Rejected err =>
      setError (Some ("Failed to fetch historical data: " ++ err))
  end ;;
  setLoading false.

(** [fetchFiles], lines 82-90. *)
Definition fetchFiles : Cmd := await GetFiles AwaitFiles.

Definition fetchFiles_resume (r : Fetched FilesBody) : Cmd :=
  match body r with
  | Resolved data => setFiles (fb_files data)
  | Rejected err => console_error "Failed to fetch files:" err
  end.

(** [analyzeFile], lines 92-109. *)
Definition analyzeFile (fileId : Z) : Cmd :=
  setAnalyzingFileId (Some fileId) ;;
  await (GetAnalyze fileId) (AwaitAnalyze fileId).

Definition analyzeFile_resume (r : Fetched AnalyzeBody) : Cmd :=
  match body r with
  | Resolved data =>
      if a_success data
      then setSelectedFileAnalysis (Some data) ;;
           setActiveTab "file-analysis"
      else alert (or_default (a_message data) "Failed to analyze file")
  | Rejected err => alert ("Error analyzing file: " ++ err)
  end ;;
  setAnalyzingFileId None.

(** [setTimeout(() => setUploadStatus(''), 3000)]: the callback is the
    only one the component ever schedules. *)
Definition setTimeout (ms : Z) : Cmd :=
  emit (SetTimeout ms) ;; suspend AwaitTimeout.

Definition timeout_resume : Cmd := setUploadStatus "".

(** [handleFileUpload], lines 111-133; [file] is
    [event.target.files[0]]. *)
Definition handleFileUpload (file : option File) : Cmd :=
  match file with
  | None => skip
  | Some f =>
      setUploadStatus "Uploading..." ;;
      await (PostUpload f) AwaitUpload
  end.

Definition handleFileUpload_resume (r : Fetched UploadBody) : Cmd :=
  match body r with
  | Resolved data =>
      if u_success data
      then setUploadStatus "Upload successful!" ;;
           fetchFiles ;;
           setTimeout 3000
      else skip
  | Rejected err => setUploadStatus ("Upload failed: " ++ err)
  end.

(** [files.find(f => f.id === fileId)?.filename]. *)
Definition filename_of (fs : list FileRecord) (fileId : Z) : option string :=
  option_map filename (find (fun f => Z.eqb (id f) fileId) fs).

(** The test of line 140, on the values the handler closed over. *)
Definition shows_deleted (analysis_seen : option AnalyzeBody)
    (files_seen : list FileRecord) (fileId : Z) : bool :=
  match analysis_seen with
  | None => false
  | Some a =>
      match analysis a with
      | None => false
      | Some _ => strict_eq (a_filename a) (filename_of files_seen fileId)
      end
  end.

(** [deleteFile], lines 135-148; [confirmed] is the answer to the
    [confirm] dialog. *)
Definition deleteFile (fileId : Z) (confirmed : bool) : Cmd := fun w =>
  if negb confirmed then w
  else await (DeleteFile fileId)
             (AwaitDelete fileId (files (ui w)) (selectedFileAnalysis (ui w)))
             w.

Definition deleteFile_resume (fileId : Z) (files_seen : list FileRecord)
    (analysis_seen : option AnalyzeBody) (r : Outcome unit) : Cmd :=
  match r with
  | Resolved _ =>
      (if shows_deleted analysis_seen files_seen fileId
       then setSelectedFileAnalysis None ;; setActiveTab "files"
       else skip) ;;
      fetchFiles
  | Rejected err => console_error "Failed to delete file:" err
  end.

(** ** Render-time projections *)

(** [getDriverStandings], lines 150-153. *)
Definition getDriverStandings (s : State) : list DriverRow :=
  match f1Data s with
  | Some d =>
      match driver_standings d with
      | Some rows => firstn 10 rows
      | None => []
      end
  | None => []
  end.

(** [getConstructorStandings], lines 155-158. *)
Definition getConstructorStandings (s : State) : list ConstructorRow :=
  match f1Data s with
  | Some d =>
      match constructor_standings d with
      | Some rows => firstn 10 rows
      | None => []
      end
  | None => []
  end.

(** [getLatestRace], lines 160-163. *)
Definition getLatestRace (s : State) : option RaceMeta :=
  match f1Data s with
  | Some d => latest_race d
  | None => None
  end.

(** [generateYearOptions], lines 165-172: [currentYear] down to 1950. *)
Definition generateYearOptions : list Z :=
  let currentYear := 2024 in
  map (fun k => currentYear - Z.of_nat k)
      (List.seq 0 (Z.to_nat (currentYear - 1950 + 1))).

(** The array literal mapped into tab buttons, lines 373-380. *)
Record TabButton := { tab_id : string; label : string; icon : string }.

Definition tab_buttons (s : State) : list TabButton :=
  [ {| tab_id := "standings"; label := "Driver Standings"; icon := "Trophy" |};
    {| tab_id := "constructors"; label := "Constructors"; icon := "Users" |};
    {| tab_id := "race"; label := "Latest Race"; icon := "Flag" |};
    {| tab_id := "historical"; label := "Historical Data"; icon := "Calendar" |};
    {| tab_id := "files"; label := "File Manager"; icon := "FileText" |} ]
  ++ match selectedFileAnalysis s with
     | Some _ => [ {| tab_id := "file-analysis"; label := "File Analysis";
                      icon := "BarChart3" |} ]
     | None => []
     end.

(** The ids of the tabs that are rendered, hence selectable. *)
Definition availableTabs (s : State) : list string :=
  map tab_id (tab_buttons s).

(** ** The event loop *)

(** What the environment hands to a suspended handler. *)
Inductive Reply :=
| FetchDataReply (r : Fetched FetchDataBody)
| InsightsReply (r : Fetched InsightsBody)
| HistoricalReply (r : Fetched HistoricalBody)
| FilesReply (r : Fetched FilesBody)
| AnalyzeReply (r : Fetched AnalyzeBody)
| UploadReply (r : Fetched UploadBody)
| DeleteReply (r : Outcome unit)
| TimerFired.

Definition resume (p : Pending) (r : Reply) : option Cmd :=
  match p, r with
  | AwaitFetchData, FetchDataReply r => Some (fetchF1Data_resume r)
  | AwaitInsights, InsightsReply r => Some (fetchInsights_resume r)
  | AwaitHistorical year, HistoricalReply r =>
      Some (fetchHistoricalData_resume year r)
  | AwaitFiles, FilesReply r => Some (fetchFiles_resume r)
  | AwaitAnalyze _, AnalyzeReply r => Some (analyzeFile_resume r)
  | AwaitUpload, UploadReply r => Some (handleFileUpload_resume r)
  | AwaitDelete fileId fs a, DeleteReply r =>
      Some (deleteFile_resume fileId fs a r)
  | AwaitTimeout, TimerFired => Some timeout_resume
  | _, _ => None
  end.

(** Take the [n]-th suspended handler out of the list. *)
Definition unpark (n : nat) (w : World) : option (Pending * World) :=
  match nth_error (inflight w) n with
  | Some p =>
      Some (p, {| ui := ui w;
                  inflight := firstn n (inflight w) ++ skipn (S n) (inflight w);
                  trace := trace w |})
  | None => None
  end.

(** User gestures and completions.  Each gesture is guarded by what the
    render makes of the current state: a control that is not rendered or
    is [disabled] cannot be used. *)
Inductive Event :=
| ClickFetch
| ClickTab (tab : string)
| ChangeYear (year : Z)
| ClickLoadData
| PickFile (file : option File)
| ClickAnalyze (fileId : Z)
| ClickDelete (fileId : Z) (confirmed : bool)
| Complete (n : nat) (r : Reply).

Definition listed (fileId : Z) (s : State) : bool :=
  existsb (fun f => Z.eqb (id f) fileId) (files s).

Definition is_analyzing (fileId : Z) (s : State) : bool :=
  match analyzingFileId s with
  | Some i => Z.eqb i fileId
  | None => false
  end.

Definition fire (e : Event) (w : World) : option World :=
  let s := ui w in
  match e with
  | ClickFetch =>
      if loading s then None else Some (fetchF1Data w)
  | ClickTab tab =>
      if existsb (String.eqb tab) (availableTabs s)
      then Some (setActiveTab tab w) else None
  | ChangeYear year =>
      if String.eqb (activeTab s) "historical"
         && existsb (Z.eqb year) generateYearOptions
      then Some (setSelectedYear year w) else None
  | ClickLoadData =>
      if String.eqb (activeTab s) "historical" && negb (loading s)
      then Some (fetchHistoricalData (selectedYear s) w) else None
  | PickFile file =>
      if String.eqb (activeTab s) "files"
      then Some (handleFileUpload file w) else None
  | ClickAnalyze fileId =>
      if String.eqb (activeTab s) "files" && listed fileId s
         && negb (is_analyzing fileId s)
      then Some (analyzeFile fileId w) else None
  | ClickDelete fileId confirmed =>
      if String.eqb (activeTab s) "files" && listed fileId s
      then Some (deleteFile fileId confirmed w) else None
  | Complete n r =>
      match unpark n w with
      | Some (p, w') =>
          match resume p r with
          | Some k => Some (k w')
          | None => None
          end
      | None => None
      end
  end.

Fixpoint run (es : list Event) (w : World) : option World :=
  match es with
  | [] => Some w
  | e :: es' =>
      match fire e w with
      | Some w' => run es' w'
      | None => None
      end
  end.

(** The component right after mounting: [useEffect] has called
    [fetchFiles]. *)
Definition mounted : World :=
  fetchFiles {| ui := initial_state; inflight := []; trace := [] |}.

Definition reachable (w : World) : Prop :=
  exists es, run es mounted = Some w.

(** A call whose reply is the next thing that happens: the handler runs
    up to its [await], and the continuation it has just parked (the one
    behind everything that was already in flight) is resumed with [r]. *)
Definition call (begin : Cmd) (r : Reply) (w : World) : option World :=
  fire (Complete (length (inflight w)) r) (begin w).

(** How often a request was issued, read off the trace. *)
Definition is_fetch_files (e : Effect) : bool :=
  match e with Fetch GetFiles => true | _ => false end.

Definition is_fetch_insights (e : Effect) : bool :=
  match e with Fetch GetInsights => true | _ => false end.

Definition is_timer (e : Effect) : bool :=
  match e with SetTimeout _ => true | _ => false end.

Definition count (f : Effect -> bool) (w : World) : nat :=
  length (filter f (trace w)).

(** Events that belong to some analyze call: a click on an Analyze
    button, or the completion of an analyze request. *)
Definition analyze_event (e : Event) : bool :=
  match e with
  | ClickAnalyze _ => true
  | Complete _ (AnalyzeReply _) => true
  | _ => false
  end.

(** The active tab is one of the rendered tabs. *)
Definition on_listed_tab (w : World) : Prop :=
  In (activeTab (ui w)) (availableTabs (ui w)).

(** ** Sample data *)

Module Sample.

Definition files_ab : list FileRecord :=
  [ {| id := 1; filename := "a.csv"; upload_date := "2024-03-01T10:00:00";
       file_type := "csv"; insights_json := None |};
    {| id := 2; filename := "b.csv"; upload_date := "2024-03-02T10:00:00";
       file_type := "csv"; insights_json := None |} ].

(** A success response of the analyze endpoint for [a.csv]. *)
Definition analysis_a : AnalyzeBody :=
  {| a_success := true; a_message := None; a_filename := Some "a.csv";
     analysis := Some {|
       summary := Some {| total_rows := 20; total_columns := 3;
                          columns := ["driver"; "team"; "points"] |};
       a_insights := Some [];
       charts := None |} |}.

(** A success response for [a.csv] that carries no [analysis] object:
    [{success: true, filename: "a.csv"}]. *)
Definition bare_a : AnalyzeBody :=
  {| a_success := true; a_message := None; a_filename := Some "a.csv";
     analysis := None |}.


(** A success response for [b.csv]. *)
Definition analysis_b : AnalyzeBody :=
  {| a_success := true; a_message := None; a_filename := Some "b.csv";
     analysis := Some {| summary := None; a_insights := Some [];
                         charts := None |} |}.

(** Declared failures of the snapshot and the analyze endpoints. *)
Definition refused_snapshot : FetchDataBody :=
  {| fd_success := false; fd_message := None; fd_data := None |}.

Definition refused_analysis : AnalyzeBody :=
  {| a_success := false; a_message := Some "unreadable file";
     a_filename := Some "b.csv"; analysis := None |}.

(** The component showing the file-analysis panel for [a], with both
    files listed. *)
Definition showing (a : AnalyzeBody) : World :=
  {| ui := {| activeTab := "file-analysis"; f1Data := None; insights := [];
              files := files_ab; loading := false; error := None;
              uploadStatus := ""; selectedYear := 2024;
              historicalData := None; selectedFileAnalysis := Some a;
              analyzingFileId := None |};
     inflight := [];
     trace := [] |}.

End Sample.

Module SampleSeason.

Definition driver (p : Z) (name team : string) (pts : Z) : DriverRow :=
  {| position := p; full_name := name; team_name := team;
     points := pts; wins := 0 |}.

Definition twelve : list DriverRow :=
  [ driver 1 "Max Verstappen" "Red Bull" 437;
    driver 2 "Lando Norris" "McLaren" 374;
    driver 3 "Charles Leclerc" "Ferrari" 356;
    driver 4 "Oscar Piastri" "McLaren" 292;
    driver 5 "Carlos Sainz" "Ferrari" 290;
    driver 6 "George Russell" "Mercedes" 245;
    driver 7 "Lewis Hamilton" "Mercedes" 223;
    driver 8 "Sergio Perez" "Red Bull" 152;
    driver 9 "Fernando Alonso" "Aston Martin" 70;
    driver 10 "Pierre Gasly" "Alpine" 42;
    driver 11 "Nico Hulkenberg" "Haas" 41;
    driver 12 "Yuki Tsunoda" "RB" 30 ].

Definition snapshot : F1Data :=
  {| driver_standings := Some twelve; constructor_standings := None;
     latest_race := None; race_results := None |}.

Definition loaded : State :=
  {| activeTab := "standings"; f1Data := Some snapshot; insights := [];
     files := []; loading := false; error := None; uploadStatus := "";
     selectedYear := 2024; historicalData := None;
     selectedFileAnalysis := None; analyzingFileId := None |}.

End SampleSeason.

Module SampleHistory.

Definition season_1954 : HistoricalBody :=
  {| h_success := true; h_message := None; h_year := 1954;
     h_champion := Some {| ch_name := "Juan Manuel Fangio";
                           ch_team := "Mercedes"; ch_points := 42;
                           ch_wins := 6 |};
     h_insights := None; h_race_count := 9; h_races := [] |}.

(** [{success: false, message: "no data"}]. *)
Definition no_data : HistoricalBody :=
  {| h_success := false; h_message := Some "no data"; h_year := 0;
     h_champion := None; h_insights := None; h_race_count := 0;
     h_races := [] |}.


(** The historical tab with the 1954 season loaded. *)
Definition showing_1954 : World :=
  {| ui := {| activeTab := "historical"; f1Data := None; insights := [];
              files := []; loading := false; error := None;
              uploadStatus := ""; selectedYear := 1955;
              historicalData := Some season_1954;
              selectedFileAnalysis := None; analyzingFileId := None |};
     inflight := [];
     trace := [] |}.

End SampleHistory.

Module SampleInsights.



End SampleInsights.

Module SampleUpload.

Definition laps : File := {| file_name := "laps.csv" |}.

(** The file manager tab, nothing uploaded yet. *)
Definition file_manager : World :=
  {| ui := {| activeTab := "files"; f1Data := None; insights := [];
              files := []; loading := false; error := None;
              uploadStatus := ""; selectedYear := 2024;
              historicalData := None; selectedFileAnalysis := None;
              analyzingFileId := None |};
     inflight := [];
     trace := [] |}.

(** [{success: false, message: "Unsupported file type"}]: the upload
    handler reads nothing but [success]. *)
Definition refused : UploadBody := {| u_success := false |}.

End SampleUpload.

(** ** Proof automation *)

(** Case analysis on every scrutinee left in the goal. *)
Ltac case_split :=
  repeat match goal with
         | |- context [match ?x with _ => _ end] => destruct x eqn:?
         end.

(** ** Further render-time projections *)

(** The guards of the six panel blocks of the card, lines 396-877: the
    ids of the blocks whose guard holds ([activeTab === id], and for the
    last block the cache as well).  This says which blocks React is asked
    to render, not that rendering them succeeds. *)
Definition panels (s : State) : list string :=
  (if String.eqb (activeTab s) "standings" then ["standings"] else []) ++
  (if String.eqb (activeTab s) "constructors" then ["constructors"] else []) ++
  (if String.eqb (activeTab s) "race" then ["race"] else []) ++
  (if String.eqb (activeTab s) "historical" then ["historical"] else []) ++
  (if String.eqb (activeTab s) "files" then ["files"] else []) ++
  (if String.eqb (activeTab s) "file-analysis"
      && match selectedFileAnalysis s with Some _ => true | None => false end
   then ["file-analysis"] else []).

(** [hay.includes(needle)]. *)
Fixpoint includes (needle hay : string) : bool :=
  String.prefix needle hay ||
  match hay with
  | EmptyString => false
  | String _ rest => includes needle rest
  end.

(** The colour of the upload indicator, lines 756-759; [None] when the
    indicator is not rendered ([uploadStatus] is the empty string). *)
Definition status_color (s : State) : option string :=
  if String.eqb (uploadStatus s) "" then None
  else Some (if includes "successful" (uploadStatus s) then "#4ade80"
             else if includes "failed" (uploadStatus s) then "#ef4444"
             else "#fbbf24").

(** ** Classifying suspended handlers, effects and events *)

(** The two handlers that hold the [loading] flag. *)
Definition awaits_load (p : Pending) : bool :=
  match p with
  | AwaitFetchData | AwaitHistorical _ => true
  | _ => false
  end.

Definition outstanding_loads (w : World) : nat :=
  length (filter awaits_load (inflight w)).

(** The years for which a historical request went out. *)
Fixpoint historical_years (t : list Effect) : list Z :=
  match t with
  | [] => []
  | Fetch (GetHistorical y) :: t' => y :: historical_years t'
  | _ :: t' => historical_years t'
  end.

(** The selected year, and every year requested so far, is one of the
    options of the selector. *)
Definition years_in_range (w : World) : Prop :=
  In (selectedYear (ui w)) generateYearOptions /\
  Forall (fun y => In y generateYearOptions) (historical_years (trace w)).

(** The events that run code of [fetchF1Data] or [fetchHistoricalData]. *)
Definition load_event (e : Event) : bool :=
  match e with
  | ClickFetch | ClickLoadData => true
  | Complete _ (FetchDataReply _) | Complete _ (HistoricalReply _) => true
  | _ => false
  end.

(** Gesture sequences of whole user scenarios; [n] is the number of
    handlers in flight when the scenario starts, so that each completion
    addresses the handler the scenario itself has parked. *)
Definition upload_scenario (n : nat) (f : File) (listing : list FileRecord)
    : list Event :=
  [ PickFile (Some f);
    Complete n (UploadReply (replied {| u_success := true |}));
    Complete n (FilesReply (replied {| fb_files := listing |}));
    Complete n TimerFired ].

Definition refresh_scenario (n : nat) (snapshot : FetchDataBody)
    (cards : list Insight) : list Event :=
  [ ClickFetch;
    Complete n (FetchDataReply (replied snapshot));
    Complete n (InsightsReply (replied {| ib_insights := cards |})) ].

(** Invert a successful [fire]: split on the event and on every guard. *)
Ltac fire_inv H :=
  unfold fire in H;
  repeat match type of H with
         | (if ?c then _ else _) = Some _ =>
             destruct c eqn:?; [|discriminate H]
         | match ?x with _ => _ end = Some _ =>
             destruct x eqn:?; try discriminate H
         end;
  injection H as <-.

Ltac unfold_resumes :=
  unfold fetchF1Data_resume, fetchInsights_resume,
    fetchHistoricalData_resume, fetchFiles_resume, analyzeFile_resume,
    handleFileUpload_resume, deleteFile_resume, timeout_resume, seq.

Ltac resume_inv :=
  match goal with
  | H : resume ?p ?r = Some ?k |- _ =>
      destruct p, r; cbn in H; try discriminate H; injection H as <-
  end.

(** The same, exposing the world a completion resumes in. *)
Ltac step_inv H :=
  unfold fire, unpark in H;
  repeat match type of H with
         | context [match nth_error ?l ?n with _ => _ end] =>
             destruct (nth_error l n) eqn:?; [|discriminate H];
             cbv beta iota in H
         | (if ?c then _ else _) = Some _ =>
             destruct c eqn:?; [|discriminate H]
         | match ?x with _ => _ end = Some _ =>
             destruct x eqn:?; try discriminate H
         end;
  injection H as <-.

(** The five caches of backend data, the completions that can fill each
    of them, and what it means for each to be empty. *)
Inductive Cache :=
| SnapshotCache
| InsightsCache
| FilesCache
| HistoricalCache
| AnalysisCache.

Definition fills (c : Cache) (e : Event) : bool :=
  match c, e with
  | SnapshotCache, Complete _ (FetchDataReply _) => true
  | InsightsCache, Complete _ (InsightsReply _) => true
  | FilesCache, Complete _ (FilesReply _) => true
  | HistoricalCache, Complete _ (HistoricalReply _) => true
  | AnalysisCache, Complete _ (AnalyzeReply _) => true
  | _, _ => false
  end.

Definition is_empty (c : Cache) (s : State) : bool :=
  match c with
  | SnapshotCache => match f1Data s with None => true | Some _ => false end
  | InsightsCache => match insights s with [] => true | _ => false end
  | FilesCache => match files s with [] => true | _ => false end
  | HistoricalCache =>
      match historicalData s with None => true | Some _ => false end
  | AnalysisCache =>
      match selectedFileAnalysis s with None => true | Some _ => false end
  end.

Ltac unfold_handlers :=
  unfold handleFileUpload, deleteFile, analyzeFile, fetchF1Data,
    fetchHistoricalData, fetchFiles, fetchInsights, await, seq.

(** Only success bodies are cached. *)
Definition caches_hold_successes (w : World) : Prop :=
  (forall h, historicalData (ui w) = Some h -> h_success h = true) /\
  (forall a, selectedFileAnalysis (ui w) = Some a -> a_success a = true).

(** The texts the upload indicator can carry. *)
Definition indicator_text (s : string) : Prop :=
  s = "" \/ s = "Uploading..." \/ s = "Upload successful!" \/
  exists err, s = "Upload failed: " ++ err.

(** A delete of [doomed] overtaken by an analyze of [other]: the delete
    is confirmed, the other file is analyzed and its reply arrives, and
    only then does the DELETE request return.  [n] is the number of
    handlers in flight at the start. *)
Definition overtaken_delete (n : nat) (doomed other : Z) (b : AnalyzeBody)
    : list Event :=
  [ ClickDelete doomed true;
    ClickAnalyze other;
    Complete (S n) (AnalyzeReply (replied b));
    Complete n (DeleteReply (Resolved tt)) ].


(** * Properties *)

(** ** Plumbing: parking and unparking *)

Lemma unpark_parked : forall u ps p t,
  unpark (length ps) {| ui := u; inflight := ps ++ [p]; trace := t |}
  = Some (p, {| ui := u; inflight := ps; trace := t |}).
Proof.
  intros u ps p t. unfold unpark. cbn [inflight ui trace].
  rewrite nth_error_app2 by apply Nat.le_refl.
  rewrite Nat.sub_diag. cbn [nth_error].
  rewrite firstn_app, Nat.sub_diag, firstn_all. cbn [firstn].
  rewrite skipn_app.
  replace (S (length ps) - length ps)%nat with 1%nat by lia.
  rewrite skipn_all2 by (apply Nat.le_succ_diag_r).
  cbn [skipn]. rewrite !app_nil_r. reflexivity.
Qed.

(** A call of a handler that parks [p] continues with [resume p]. *)
Lemma call_parks : forall begin r w u p t k,
  begin w = {| ui := u; inflight := inflight w ++ [p]; trace := t |} ->
  resume p r = Some k ->
  call begin r w = Some (k {| ui := u; inflight := inflight w; trace := t |}).
Proof.
  intros begin r w u p t k Hb Hk. unfold call, fire.
  rewrite Hb, unpark_parked, Hk. reflexivity.
Qed.

Lemma strict_eq_true : forall a b, strict_eq a b = true <-> a = b.
Proof.
  intros [s|] [t|]; cbn.
  - rewrite String.eqb_eq. split; congruence.
  - split; discriminate.
  - split; discriminate.
  - split; reflexivity.
Qed.


(** ** [deleteFile] *)

Lemma deleteFile_cancelled : forall fileId w, deleteFile fileId false w = w.
Proof. reflexivity. Qed.

Lemma deleteFile_confirmed : forall fileId w,
  deleteFile fileId true w =
  {| ui := ui w;
     inflight := inflight w ++
       [AwaitDelete fileId (files (ui w)) (selectedFileAnalysis (ui w))];
     trace := trace w ++ [Fetch (DeleteFile fileId)] |}.
Proof. reflexivity. Qed.

Lemma call_deleteFile : forall fileId r w,
  call (deleteFile fileId true) (DeleteReply r) w =
  Some (deleteFile_resume fileId (files (ui w)) (selectedFileAnalysis (ui w)) r
          {| ui := ui w; inflight := inflight w;
             trace := trace w ++ [Fetch (DeleteFile fileId)] |}).
Proof.
  intros. eapply call_parks; [apply deleteFile_confirmed | reflexivity].
Qed.

(** Whatever the world looks like when the DELETE request returns, a
    handler whose test fails touches neither the cache nor the tab. *)
Lemma deleteFile_resume_frame : forall fileId fs a r w,
  shows_deleted a fs fileId = false ->
  selectedFileAnalysis (ui (deleteFile_resume fileId fs a r w))
    = selectedFileAnalysis (ui w) /\
  activeTab (ui (deleteFile_resume fileId fs a r w)) = activeTab (ui w).
Proof.
  intros fileId fs a r w H. unfold deleteFile_resume.
  destruct r; [rewrite H|]; split; reflexivity.
Qed.

Lemma deleteFile_resume_retracts : forall fileId fs a u w,
  shows_deleted a fs fileId = true ->
  selectedFileAnalysis (ui (deleteFile_resume fileId fs a (Resolved u) w))
    = None /\
  activeTab (ui (deleteFile_resume fileId fs a (Resolved u) w)) = "files".
Proof.
  intros fileId fs a u w H. unfold deleteFile_resume.
  rewrite H. split; reflexivity.
Qed.

Lemma deleteFile_resume_rejected : forall fileId fs a err w,
  ui (deleteFile_resume fileId fs a (Rejected err) w) = ui w.
Proof. reflexivity. Qed.

(** C1, as amended.  With an analysis cached, a confirmed [delete(fileId)]
    whose DELETE request returns, where the file list maps [fileId] to the
    cached filename AND the cached response carries an [analysis] object,
    clears the cache and sets [activeTab] to ["files"], both in the one
    continuation that the call resumes; a [delete(fileId)] for a file
    whose filename differs leaves the cache and [activeTab] as they were;
    a cancelled confirmation leaves the whole world as it was. *)
Theorem delete_retracts_shown_analysis : forall w fileId a name,
  selectedFileAnalysis (ui w) = Some a ->
  filename_of (files (ui w)) fileId = Some name ->
  deleteFile fileId false w = w /\
  exists w',
    call (deleteFile fileId true) (DeleteReply (Resolved tt)) w = Some w' /\
    (Some name = a_filename a -> analysis a <> None ->
       selectedFileAnalysis (ui w') = None /\ activeTab (ui w') = "files") /\
    (Some name <> a_filename a ->
       selectedFileAnalysis (ui w') = selectedFileAnalysis (ui w) /\
       activeTab (ui w') = activeTab (ui w)).
Proof.
  intros w fileId a name Ha Hname. split; [apply deleteFile_cancelled|].
  eexists. split; [apply call_deleteFile|]. split.
  - intros Heq Hpayload.
    refine (deleteFile_resume_retracts _ _ _ tt _ _).
    rewrite Ha. unfold shows_deleted.
    destruct (analysis a); [|congruence].
    apply strict_eq_true. congruence.
  - intros Hne.
    assert (Hno : shows_deleted (selectedFileAnalysis (ui w)) (files (ui w))
                    fileId = false).
    { rewrite Ha. unfold shows_deleted. destruct (analysis a); [|reflexivity].
      destruct (strict_eq (a_filename a) (filename_of (files (ui w)) fileId))
        eqn:E; [|reflexivity].
      apply strict_eq_true in E. congruence. }
    exact (deleteFile_resume_frame _ _ _ (Resolved tt) _ Hno).
Qed.

Lemma delete_retracts_shown_analysis_witness :
  deleteFile 1 false (Sample.showing Sample.analysis_a)
    = Sample.showing Sample.analysis_a /\
  exists w',
    call (deleteFile 1 true) (DeleteReply (Resolved tt))
         (Sample.showing Sample.analysis_a) = Some w' /\
    selectedFileAnalysis (ui w') = None /\ activeTab (ui w') = "files".
Proof.
  destruct (delete_retracts_shown_analysis
              (Sample.showing Sample.analysis_a) 1 Sample.analysis_a "a.csv"
              eq_refl eq_refl) as [Hc [w' [Hcall [Hyes _]]]].
  split; [exact Hc|]. exists w'. split; [exact Hcall|].
  apply Hyes; [reflexivity | discriminate].
Defined.

(** C1 as stated fails: files [a.csv] (id 1) and [b.csv] (id 2), a cached
    analyze response whose filename is [a.csv] but which has no
    [analysis] object; [delete(1)], confirmed and completed, leaves the
    cache filled and the file-analysis tab active. *)
Lemma delete_keeps_bare_analysis :
  selectedFileAnalysis (ui (Sample.showing Sample.bare_a))
    = Some Sample.bare_a /\
  filename_of (files (ui (Sample.showing Sample.bare_a))) 1
    = a_filename Sample.bare_a /\
  exists w',
    call (deleteFile 1 true) (DeleteReply (Resolved tt))
         (Sample.showing Sample.bare_a) = Some w' /\
    selectedFileAnalysis (ui w') = Some Sample.bare_a /\
    activeTab (ui w') = "file-analysis".
Proof.
  split; [reflexivity|]. split; [reflexivity|].
  eexists. split; [apply call_deleteFile|]. split; reflexivity.
Qed.




(** ** [getDriverStandings] *)

(** C8.  When the cached snapshot has twelve driver rows at positions
    1..12 in this order, the standings projection is the first ten rows:
    it lists positions 1..10, and a row of the snapshot is shown exactly
    when its position is at most 10. *)
Theorem standings_expose_first_ten : forall s d rows,
  f1Data s = Some d ->
  driver_standings d = Some rows ->
  map position rows = [1; 2; 3; 4; 5; 6; 7; 8; 9; 10; 11; 12] ->
  getDriverStandings s = firstn 10 rows /\
  map position (getDriverStandings s) = [1; 2; 3; 4; 5; 6; 7; 8; 9; 10] /\
  (forall r, In r (getDriverStandings s) <-> In r rows /\ position r <= 10).
Proof.
  intros s d rows Hs Hd Hpos. unfold getDriverStandings. rewrite Hs, Hd.
  do 12 (destruct rows as [|? rows]; [discriminate Hpos|]).
  destruct rows; [|discriminate Hpos].
  injection Hpos as H1 H2 H3 H4 H5 H6 H7 H8 H9 H10 H11 H12.
  split; [reflexivity|]. split.
  - cbn [firstn map]. congruence.
  - intros r. cbn [firstn In]. split.
    + intros H. split; [tauto|].
      repeat (destruct H as [H|H]; [subst r; lia|]). contradiction.
    + intros [H Hle].
      repeat (destruct H as [H|H];
              [first [ subst r; lia | tauto ] |]).
      contradiction.
Qed.

Lemma standings_expose_first_ten_witness :
  map full_name (getDriverStandings SampleSeason.loaded) =
  [ "Max Verstappen"; "Lando Norris"; "Charles Leclerc"; "Oscar Piastri";
    "Carlos Sainz"; "George Russell"; "Lewis Hamilton"; "Sergio Perez";
    "Fernando Alonso"; "Pierre Gasly" ].
Proof.
  destruct (standings_expose_first_ten SampleSeason.loaded
              SampleSeason.snapshot SampleSeason.twelve
              eq_refl eq_refl eq_refl) as [H _].
  rewrite H. reflexivity.
Defined.

(** ** [analyzeFile] *)

Lemma unpark_keeps : forall n w p w',
  unpark n w = Some (p, w') -> ui w' = ui w /\ trace w' = trace w.
Proof.
  intros n w p w' H. unfold unpark in H.
  destruct (nth_error (inflight w) n); [|discriminate].
  injection H as _ <-. split; reflexivity.
Qed.

Lemma analyzeFile_parks : forall fileId w,
  exists u,
    analyzeFile fileId w =
      {| ui := u; inflight := inflight w ++ [AwaitAnalyze fileId];
         trace := trace w ++ [Fetch (GetAnalyze fileId)] |} /\
    analyzingFileId u = Some fileId /\
    activeTab u = activeTab (ui w) /\
    selectedFileAnalysis u = selectedFileAnalysis (ui w).
Proof. intros. eexists. repeat split. Qed.

(** The [finally] clause. *)
Lemma analyzeFile_resume_clears : forall r w,
  analyzingFileId (ui (analyzeFile_resume r w)) = None.
Proof. reflexivity. Qed.

(** No handler other than [analyzeFile] writes [analyzingFileId]. *)
Lemma resume_keeps_analyzingFileId : forall p r k w,
  resume p r = Some k ->
  (forall r', r <> AnalyzeReply r') ->
  analyzingFileId (ui (k w)) = analyzingFileId (ui w).
Proof.
  intros p r k w H Hr.
  destruct p, r; cbn in H; try discriminate;
    try (exfalso; eapply Hr; reflexivity);
    injection H as <-;
    unfold fetchF1Data_resume, fetchInsights_resume,
      fetchHistoricalData_resume, fetchFiles_resume,
      handleFileUpload_resume, deleteFile_resume, timeout_resume, seq;
    case_split; reflexivity.
Qed.

Lemma fire_keeps_analyzingFileId : forall e w w',
  fire e w = Some w' ->
  analyze_event e = false ->
  analyzingFileId (ui w') = analyzingFileId (ui w).
Proof.
  intros e w w' H He.
  destruct e; cbn in He; try discriminate; unfold fire in H.
  - destruct (loading (ui w)); [discriminate|].
    injection H as <-. reflexivity.
  - destruct (existsb _ _); [|discriminate]. injection H as <-. reflexivity.
  - destruct (_ && _); [|discriminate]. injection H as <-. reflexivity.
  - destruct (_ && _); [|discriminate]. injection H as <-. reflexivity.
  - destruct (String.eqb _ _); [|discriminate]. injection H as <-.
    destruct file; reflexivity.
  - destruct (_ && _); [|discriminate]. injection H as <-.
    destruct confirmed; reflexivity.
  - destruct (unpark n w) as [[p w1]|] eqn:Hu; [|discriminate].
    destruct (resume p r) as [k|] eqn:Hk; [|discriminate].
    injection H as <-.
    rewrite (resume_keeps_analyzingFileId p r k w1 Hk).
    + apply unpark_keeps in Hu. destruct Hu as [-> _]. reflexivity.
    + intros r' ->. discriminate.
Qed.

Lemma run_keeps_analyzingFileId : forall es w w',
  run es w = Some w' ->
  forallb (fun e => negb (analyze_event e)) es = true ->
  analyzingFileId (ui w') = analyzingFileId (ui w).
Proof.
  induction es as [|e es IH]; intros w w' H Hes; cbn in H.
  - injection H as <-. reflexivity.
  - destruct (fire e w) as [w1|] eqn:Hf; [|discriminate].
    cbn in Hes. apply andb_prop in Hes. destruct Hes as [He Hes].
    rewrite (IH _ _ H Hes).
    apply (fire_keeps_analyzingFileId e); [exact Hf|].
    destruct (analyze_event e); [discriminate | reflexivity].
Qed.

Lemma call_analyzeFile : forall fileId r w,
  call (analyzeFile fileId) (AnalyzeReply r) w =
  Some (analyzeFile_resume r
     {| ui := ui (analyzeFile fileId w); inflight := inflight w;
        trace := trace w ++ [Fetch (GetAnalyze fileId)] |}).
Proof.
  intros. eapply call_parks; reflexivity.
Qed.

(** C3.  [analyze(fileId)] sets [analyzingFileId] to [fileId] before it
    suspends; the cell keeps that value in every world reached while the
    request is outstanding (through any events that are not themselves
    part of an analyze call), and the continuation clears it there
    whatever the reply.  When the reply arrives: a body with [success]
    set is cached and [activeTab] becomes ["file-analysis"], with no
    alert; a body with [success] unset raises one alert, carrying the
    server message when there is a non-empty one and the text
    ["Failed to analyze file"] otherwise, and leaves [activeTab] and the
    cache alone; a request or a decoding that throws raises one alert
    with the error message and leaves them alone too; in every case
    [analyzingFileId] is absent afterwards. *)
Theorem analyze_tracks_caches_and_reports : forall fileId w,
  analyzingFileId (ui (analyzeFile fileId w)) = Some fileId /\
  (forall es w1,
     run es (analyzeFile fileId w) = Some w1 ->
     forallb (fun e => negb (analyze_event e)) es = true ->
     analyzingFileId (ui w1) = Some fileId /\
     forall r, analyzingFileId (ui (analyzeFile_resume r w1)) = None) /\
  (forall resp data,
     json resp = Resolved data -> a_success data = true ->
     exists w',
       call (analyzeFile fileId) (AnalyzeReply (Resolved resp)) w = Some w' /\
       selectedFileAnalysis (ui w') = Some data /\
       activeTab (ui w') = "file-analysis" /\
       trace w' = (trace w ++ [Fetch (GetAnalyze fileId)])%list /\
       analyzingFileId (ui w') = None) /\
  (forall resp data m,
     json resp = Resolved data -> a_success data = false ->
     a_message data = Some m -> m <> "" ->
     exists w',
       call (analyzeFile fileId) (AnalyzeReply (Resolved resp)) w = Some w' /\
       trace w' = (trace w ++ [Fetch (GetAnalyze fileId); Alert m])%list /\
       activeTab (ui w') = activeTab (ui w) /\
       selectedFileAnalysis (ui w') = selectedFileAnalysis (ui w) /\
       analyzingFileId (ui w') = None) /\
  (forall resp data,
     json resp = Resolved data -> a_success data = false ->
     a_message data = None \/ a_message data = Some "" ->
     exists w',
       call (analyzeFile fileId) (AnalyzeReply (Resolved resp)) w = Some w' /\
       trace w' = (trace w ++ [Fetch (GetAnalyze fileId);
                               Alert "Failed to analyze file"])%list /\
       activeTab (ui w') = activeTab (ui w) /\
       selectedFileAnalysis (ui w') = selectedFileAnalysis (ui w) /\
       analyzingFileId (ui w') = None) /\
  (forall r err,
     r = Rejected err \/ (exists resp, r = Resolved resp /\
                                       json resp = Rejected err) ->
     exists w',
       call (analyzeFile fileId) (AnalyzeReply r) w = Some w' /\
       trace w' = (trace w ++
         [Fetch (GetAnalyze fileId);
          Alert ("Error analyzing file: " ++ err)%string])%list /\
       activeTab (ui w') = activeTab (ui w) /\
       selectedFileAnalysis (ui w') = selectedFileAnalysis (ui w) /\
       analyzingFileId (ui w') = None).
Proof.
  intros fileId w. split; [reflexivity|]. split; [|split; [|split; [|split]]].
  - intros es w1 Hrun Hes. split; [|reflexivity].
    rewrite (run_keeps_analyzingFileId es _ _ Hrun Hes). reflexivity.
  - intros resp data Hj Hs. eexists. split; [apply call_analyzeFile|].
    unfold analyzeFile_resume, seq. cbn [body]. rewrite Hj, Hs.
    repeat split.
  - intros resp data m Hj Hs Hm Hne. eexists.
    split; [apply call_analyzeFile|].
    unfold analyzeFile_resume, seq. cbn [body]. rewrite Hj, Hs.
    unfold or_default. rewrite Hm.
    destruct (String.eqb m "") eqn:E;
      [apply String.eqb_eq in E; contradiction|].
    cbn. rewrite <- app_assoc. repeat split.
  - intros resp data Hj Hs Hm. eexists.
    split; [apply call_analyzeFile|].
    unfold analyzeFile_resume, seq. cbn [body]. rewrite Hj, Hs.
    assert (Hd : or_default (a_message data) "Failed to analyze file"
                 = "Failed to analyze file")
      by (destruct Hm as [-> | ->]; reflexivity).
    rewrite Hd. cbn. rewrite <- app_assoc. repeat split.
  - intros r err Hr. eexists. split; [apply call_analyzeFile|].
    assert (Hb : body r = Rejected err).
    { destruct Hr as [-> | [resp [-> Hj]]]; [reflexivity | exact Hj]. }
    unfold analyzeFile_resume, seq. rewrite Hb.
    cbn. rewrite <- app_assoc. repeat split.
Qed.

Lemma analyze_tracks_caches_and_reports_witness :
  (exists w1,
     run [ClickTab "historical"; ClickLoadData; ClickTab "files";
          ClickDelete 1 true]
         (analyzeFile 2 (Sample.showing Sample.analysis_a)) = Some w1 /\
     analyzingFileId (ui w1) = Some 2 /\
     analyzingFileId
       (ui (analyzeFile_resume (Rejected "Failed to fetch") w1)) = None) /\
  (exists w',
     call (analyzeFile 2) (AnalyzeReply (replied Sample.analysis_b))
          (Sample.showing Sample.analysis_a) = Some w' /\
     selectedFileAnalysis (ui w') = Some Sample.analysis_b /\
     activeTab (ui w') = "file-analysis") /\
  (exists w',
     call (analyzeFile 2) (AnalyzeReply (replied Sample.refused_analysis))
          (Sample.showing Sample.analysis_a) = Some w' /\
     trace w' = [Fetch (GetAnalyze 2); Alert "unreadable file"] /\
     selectedFileAnalysis (ui w') = Some Sample.analysis_a) /\
  (exists w',
     call (analyzeFile 2)
          (AnalyzeReply (replied
             {| a_success := false; a_message := Some "";
                a_filename := None; analysis := None |}))
          (Sample.showing Sample.analysis_a) = Some w' /\
     trace w' = [Fetch (GetAnalyze 2); Alert "Failed to analyze file"]) /\
  (exists w',
     call (analyzeFile 2) (AnalyzeReply (Rejected "Failed to fetch"))
          (Sample.showing Sample.analysis_a) = Some w' /\
     trace w' = [Fetch (GetAnalyze 2);
                 Alert "Error analyzing file: Failed to fetch"]).
Proof.
  destruct (analyze_tracks_caches_and_reports 2
              (Sample.showing Sample.analysis_a))
    as [_ [Hheld [Hok [Hmsg [Hdef Hthrown]]]]].
  split; [|split; [|split; [|split]]].
  - eexists. split; [vm_compute; reflexivity|].
    destruct (Hheld [ClickTab "historical"; ClickLoadData; ClickTab "files";
                     ClickDelete 1 true] _ eq_refl eq_refl) as [H1 H2].
    split; [exact H1 | exact (H2 _)].
  - destruct (Hok (http_200 Sample.analysis_b) Sample.analysis_b
                eq_refl eq_refl) as [w' [Hc [Hs [Ht _]]]].
    exists w'. repeat split; assumption.
  - destruct (Hmsg (http_200 Sample.refused_analysis) Sample.refused_analysis
                "unreadable file" eq_refl eq_refl eq_refl)
      as [w' [Hc [Ht [_ [Hs _]]]]]; [discriminate|].
    exists w'. repeat split; assumption.
  - destruct (Hdef (http_200 {| a_success := false; a_message := Some "";
                                a_filename := None; analysis := None |})
                _ eq_refl eq_refl (or_intror eq_refl))
      as [w' [Hc [Ht _]]].
    exists w'. split; assumption.
  - destruct (Hthrown (Rejected "Failed to fetch") "Failed to fetch"
                (or_introl eq_refl)) as [w' [Hc [Ht _]]].
    exists w'. split; assumption.
Defined.

(** Two analyze calls that overlap share the one cell: with the call for
    file 1 outstanding, a call for file 2 takes the cell over, and the
    completion of the first call blanks it while the second is still in
    flight.  This is why the property above is about one call at a
    time. *)
Lemma overlapping_analyze_calls_share_tracker :
  exists w1 w2,
    run [ClickTab "files"; ClickAnalyze 1; ClickAnalyze 2]
        (Sample.showing Sample.analysis_a) = Some w1 /\
    inflight w1 = [AwaitAnalyze 1; AwaitAnalyze 2] /\
    analyzingFileId (ui w1) = Some 2 /\
    fire (Complete 0 (AnalyzeReply (replied Sample.refused_analysis))) w1
      = Some w2 /\
    inflight w2 = [AwaitAnalyze 2] /\
    analyzingFileId (ui w2) = None.
Proof. do 2 eexists. repeat split; vm_compute; reflexivity. Qed.

(** ** The tab list *)

Lemma tab_listed_iff_cached : forall s,
  In "file-analysis" (availableTabs s) <-> selectedFileAnalysis s <> None.
Proof.
  intros s. unfold availableTabs, tab_buttons.
  destruct (selectedFileAnalysis s); cbn; split; intros H.
  - discriminate.
  - tauto.
  - repeat (destruct H as [H|H]; [discriminate H|]). contradiction.
  - congruence.
Qed.

Lemma fixed_tabs_listed : forall s tab,
  In tab ["standings"; "constructors"; "race"; "historical"; "files"] ->
  In tab (availableTabs s).
Proof.
  intros s tab H. unfold availableTabs, tab_buttons.
  rewrite map_app. apply in_or_app. left. exact H.
Qed.

Lemma availableTabs_cache : forall s s',
  selectedFileAnalysis s = selectedFileAnalysis s' ->
  availableTabs s = availableTabs s'.
Proof.
  intros s s' H. unfold availableTabs, tab_buttons. rewrite H. reflexivity.
Qed.

(** The active tab is always one of the rendered ones: the cache is only
    emptied by the [deleteFile] continuation, which moves to ["files"] in
    the same step. *)

Lemma resume_on_listed_tab : forall p r k w,
  resume p r = Some k -> on_listed_tab w -> on_listed_tab (k w).
Proof.
  intros p r k w H Hw. unfold on_listed_tab in *.
  destruct p, r; cbn in H; try discriminate; injection H as <-;
    unfold fetchF1Data_resume, fetchInsights_resume,
      fetchHistoricalData_resume, fetchFiles_resume, analyzeFile_resume,
      handleFileUpload_resume, deleteFile_resume, timeout_resume, seq;
    case_split; try exact Hw.
  - apply tab_listed_iff_cached. discriminate.
  - apply fixed_tabs_listed. cbn. tauto.
Qed.

Lemma fire_on_listed_tab : forall e w w',
  fire e w = Some w' -> on_listed_tab w -> on_listed_tab w'.
Proof.
  intros e w w' H Hw. destruct e; unfold fire in H.
  - destruct (loading (ui w)); [discriminate|]. injection H as <-. exact Hw.
  - destruct (existsb _ _) eqn:E; [|discriminate]. injection H as <-.
    apply existsb_exists in E. destruct E as [t [Hin Ht]].
    apply String.eqb_eq in Ht. subst t. exact Hin.
  - destruct (_ && _); [|discriminate]. injection H as <-. exact Hw.
  - destruct (_ && _); [|discriminate]. injection H as <-. exact Hw.
  - destruct (String.eqb _ _); [|discriminate]. injection H as <-.
    destruct file; exact Hw.
  - destruct (_ && _); [|discriminate]. injection H as <-. exact Hw.
  - destruct (_ && _); [|discriminate]. injection H as <-.
    destruct confirmed; exact Hw.
  - destruct (unpark n w) as [[p w1]|] eqn:Hu; [|discriminate].
    destruct (resume p r) as [k|] eqn:Hk; [|discriminate].
    injection H as <-. apply (resume_on_listed_tab p r k w1 Hk).
    apply unpark_keeps in Hu. destruct Hu as [Hu _].
    unfold on_listed_tab. rewrite Hu. exact Hw.
Qed.

Lemma run_on_listed_tab : forall es w w',
  run es w = Some w' -> on_listed_tab w -> on_listed_tab w'.
Proof.
  induction es as [|e es IH]; intros w w' H Hw; cbn in H.
  - injection H as <-. exact Hw.
  - destruct (fire e w) as [w1|] eqn:Hf; [|discriminate].
    apply (IH w1 w' H). exact (fire_on_listed_tab e w w1 Hf Hw).
Qed.

Lemma reachable_on_listed_tab : forall w, reachable w -> on_listed_tab w.
Proof.
  intros w [es Hes]. apply (run_on_listed_tab es mounted w Hes).
  unfold on_listed_tab. cbn. tauto.
Qed.

(** C2.  In every reachable world the tab list contains
    ["file-analysis"] exactly when an analysis is cached.  A successful
    analyze call makes it listed in the very world its continuation
    produces, and over any step of the event loop the tab disappears
    from the list exactly when that step empties the cache. *)
Theorem file_analysis_tab_iff_cached : forall w,
  reachable w ->
  (In "file-analysis" (availableTabs (ui w)) <->
     selectedFileAnalysis (ui w) <> None) /\
  (forall fileId r data,
     body r = Resolved data -> a_success data = true ->
     exists w',
       call (analyzeFile fileId) (AnalyzeReply r) w = Some w' /\
       selectedFileAnalysis (ui w') = Some data /\
       In "file-analysis" (availableTabs (ui w'))) /\
  (forall e w',
     fire e w = Some w' ->
     (In "file-analysis" (availableTabs (ui w)) /\
      ~ In "file-analysis" (availableTabs (ui w')))
     <->
     (selectedFileAnalysis (ui w) <> None /\
      selectedFileAnalysis (ui w') = None)).
Proof.
  intros w _. split; [apply tab_listed_iff_cached|]. split.
  - intros fileId r data Hr Hs. eexists.
    split; [apply call_analyzeFile|].
    assert (Hc : selectedFileAnalysis
              (ui (analyzeFile_resume r
                 {| ui := ui (analyzeFile fileId w); inflight := inflight w;
                    trace := (trace w ++ [Fetch (GetAnalyze fileId)])%list |}))
            = Some data).
    { unfold analyzeFile_resume, seq. rewrite Hr, Hs. reflexivity. }
    split; [exact Hc|]. apply tab_listed_iff_cached. rewrite Hc. discriminate.
  - intros e w' _. rewrite !tab_listed_iff_cached.
    destruct (selectedFileAnalysis (ui w')); intuition congruence.
Qed.

Lemma file_analysis_tab_iff_cached_witness :
  (In "file-analysis" (availableTabs (ui mounted)) <->
     selectedFileAnalysis (ui mounted) <> None) /\
  exists w',
    call (analyzeFile 1)
         (AnalyzeReply (Resolved {| ok := true; status := 200;
                                    json := Resolved Sample.analysis_a |}))
         mounted = Some w' /\
    selectedFileAnalysis (ui w') = Some Sample.analysis_a /\
    In "file-analysis" (availableTabs (ui w')).
Proof.
  assert (Hr : reachable mounted) by (exists []; reflexivity).
  destruct (file_analysis_tab_iff_cached mounted Hr) as [H1 [H2 _]].
  split; [exact H1|].
  exact (H2 1 (Resolved {| ok := true; status := 200;
                           json := Resolved Sample.analysis_a |})
            Sample.analysis_a eq_refl eq_refl).
Defined.

(** ** Declared failures and the caches *)

Lemma call_fetchF1Data : forall r w,
  call fetchF1Data (FetchDataReply r) w =
  Some (fetchF1Data_resume r
     {| ui := ui (fetchF1Data w); inflight := inflight w;
        trace := trace w ++ [Fetch PostFetchData] |}).
Proof. intros. eapply call_parks; reflexivity. Qed.

Lemma call_fetchHistoricalData : forall year r w,
  call (fetchHistoricalData year) (HistoricalReply r) w =
  Some (fetchHistoricalData_resume year r
     {| ui := ui (fetchHistoricalData year w); inflight := inflight w;
        trace := trace w ++ [Fetch (GetHistorical year)] |}).
Proof. intros. eapply call_parks; reflexivity. Qed.


(** The season snapshot is written on success only. *)
Lemma fetchF1Data_resume_cache : forall r w,
  f1Data (ui (fetchF1Data_resume r w)) =
  match checked_body r with
  | Resolved data => if fd_success data then fd_data data else f1Data (ui w)
  | Rejected _ => f1Data (ui w)
  end.
Proof.
  intros r w. unfold fetchF1Data_resume, seq.
  destruct (checked_body r) as [data|err]; [destruct (fd_success data)|];
    reflexivity.
Qed.

Lemma analyzeFile_resume_cache : forall r w,
  selectedFileAnalysis (ui (analyzeFile_resume r w)) =
  match body r with
  | Resolved data =>
      if a_success data then Some data else selectedFileAnalysis (ui w)
  | Rejected _ => selectedFileAnalysis (ui w)
  end.
Proof.
  intros r w. unfold analyzeFile_resume, seq.
  destruct (body r) as [data|err]; [destruct (a_success data)|];
    reflexivity.
Qed.

Lemma fetchHistoricalData_resume_cache : forall year r w,
  historicalData (ui (fetchHistoricalData_resume year r w)) =
  match body r with
  | Resolved data =>
      if h_success data then Some data else historicalData (ui w)
  | Rejected _ => historicalData (ui w)
  end.
Proof.
  intros year r w. unfold fetchHistoricalData_resume, seq.
  destruct (body r) as [data|err]; [destruct (h_success data)|];
    reflexivity.
Qed.

(** C4, as amended.  On a response with [success=false], the season
    snapshot fetch and the file analyze call leave their cache holding the
    value it held before the call; the historical fetch leaves its cache
    empty, having emptied it before the request went out, so that its
    cache is as before only when it was empty before. *)
Theorem declared_failure_and_caches : forall w,
  (forall resp data,
     json resp = Resolved data -> fd_success data = false ->
     exists w',
       call fetchF1Data (FetchDataReply (Resolved resp)) w = Some w' /\
       f1Data (ui w') = f1Data (ui w)) /\
  (forall fileId resp data,
     json resp = Resolved data -> a_success data = false ->
     exists w',
       call (analyzeFile fileId) (AnalyzeReply (Resolved resp)) w = Some w' /\
       selectedFileAnalysis (ui w') = selectedFileAnalysis (ui w)) /\
  (forall year resp data,
     json resp = Resolved data -> h_success data = false ->
     exists w',
       call (fetchHistoricalData year) (HistoricalReply (Resolved resp)) w
         = Some w' /\
       historicalData (ui w') = None /\
       (historicalData (ui w') = historicalData (ui w) <->
        historicalData (ui w) = None)).
Proof.
  intros w. repeat split.
  - intros resp data Hj Hs. eexists. split; [apply call_fetchF1Data|].
    rewrite fetchF1Data_resume_cache. cbn [checked_body].
    destruct (negb (ok resp)); [reflexivity|]. rewrite Hj, Hs. reflexivity.
  - intros fileId resp data Hj Hs. eexists.
    split; [apply call_analyzeFile|].
    rewrite analyzeFile_resume_cache. cbn [body]. rewrite Hj, Hs. reflexivity.
  - intros year resp data Hj Hs. eexists.
    split; [apply call_fetchHistoricalData|].
    rewrite fetchHistoricalData_resume_cache. cbn [body]. rewrite Hj, Hs.
    split; [reflexivity|]. cbn. split; congruence.
Qed.

Lemma declared_failure_and_caches_witness :
  (exists w',
     call fetchF1Data
          (FetchDataReply (replied
             Sample.refused_snapshot))
          (Sample.showing Sample.analysis_a) = Some w' /\
     f1Data (ui w') = None) /\
  (exists w',
     call (analyzeFile 2)
          (AnalyzeReply (replied
             Sample.refused_analysis))
          (Sample.showing Sample.analysis_a) = Some w' /\
     selectedFileAnalysis (ui w') = Some Sample.analysis_a) /\
  (exists w',
     call (fetchHistoricalData 1955)
          (HistoricalReply (replied SampleHistory.no_data))
          SampleHistory.showing_1954 = Some w' /\
     historicalData (ui w') = None).
Proof.
  destruct (declared_failure_and_caches (Sample.showing Sample.analysis_a))
    as [H1 [H2 _]].
  destruct (declared_failure_and_caches SampleHistory.showing_1954)
    as [_ [_ H3]].
  split; [|split].
  - exact (H1 (http_200 Sample.refused_snapshot)
              Sample.refused_snapshot eq_refl eq_refl).
  - exact (H2 2 (http_200 Sample.refused_analysis)
              Sample.refused_analysis eq_refl eq_refl).
  - destruct (H3 1955 (http_200 SampleHistory.no_data)
                 SampleHistory.no_data eq_refl eq_refl)
      as [w' [Hc [Hn _]]].
    exists w'. split; [exact Hc | exact Hn].
Defined.

(** C4 as stated fails for the historical fetch: with the 1954 season
    cached, [fetchHistorical(1955)] answered by
    [{success: false, message: "no data"}] ends with an empty cache, not
    with the 1954 season it held when the call was made. *)
Lemma failed_historical_fetch_drops_cache :
  historicalData (ui SampleHistory.showing_1954)
    = Some SampleHistory.season_1954 /\
  exists w',
    call (fetchHistoricalData 1955)
         (HistoricalReply (replied SampleHistory.no_data))
         SampleHistory.showing_1954 = Some w' /\
    historicalData (ui w') = None /\
    historicalData (ui w') <> historicalData (ui SampleHistory.showing_1954).
Proof.
  split; [reflexivity|].
  eexists. split; [apply call_fetchHistoricalData|].
  split; [reflexivity | discriminate].
Qed.

(** ** [fetchHistoricalData] *)

(** C7.  [fetchHistorical(year)] issues its request from a world whose
    historical cache is already empty, whatever was cached before; and
    when the reply is [success=false] with message ["no data"], the cache
    is empty after completion and the banner error is exactly
    ["no data"]. *)
Theorem fetchHistorical_clears_then_reports : forall year w,
  (exists w0,
     historicalData (ui w0) = None /\
     trace w0 = trace w /\
     fetchHistoricalData year w
       = await (GetHistorical year) (AwaitHistorical year) w0) /\
  historicalData (ui (fetchHistoricalData year w)) = None /\
  (forall resp data,
     json resp = Resolved data ->
     h_success data = false ->
     h_message data = Some "no data" ->
     exists w',
       call (fetchHistoricalData year) (HistoricalReply (Resolved resp)) w
         = Some w' /\
       historicalData (ui w') = None /\
       error (ui w') = Some "no data").
Proof.
  intros year w. split; [|split].
  - exists ((setLoading true ;; setError None ;; setHistoricalData None) w).
    repeat split.
  - reflexivity.
  - intros resp data Hj Hs Hm. eexists.
    split; [apply call_fetchHistoricalData|].
    unfold fetchHistoricalData_resume, seq. cbn [body].
    rewrite Hj, Hs, Hm. split; reflexivity.
Qed.

Lemma fetchHistorical_clears_then_reports_witness :
  exists w',
    call (fetchHistoricalData 1955)
         (HistoricalReply (replied SampleHistory.no_data))
         SampleHistory.showing_1954 = Some w' /\
    historicalData (ui w') = None /\
    error (ui w') = Some "no data".
Proof.
  destruct (fetchHistorical_clears_then_reports 1955
              SampleHistory.showing_1954) as [_ [_ H]].
  exact (H (http_200 SampleHistory.no_data)
           SampleHistory.no_data eq_refl eq_refl eq_refl).
Defined.

(** ** [handleFileUpload] *)

Lemma call_handleFileUpload : forall f r w,
  call (handleFileUpload (Some f)) (UploadReply r) w =
  Some (handleFileUpload_resume r
     {| ui := ui (setUploadStatus "Uploading..." w); inflight := inflight w;
        trace := trace w ++ [Fetch (PostUpload f)] |}).
Proof. intros. eapply call_parks; reflexivity. Qed.

(** What an upload leaves behind, case by case. *)
Lemma upload_outcomes : forall f r w,
  exists w',
    call (handleFileUpload (Some f)) (UploadReply r) w = Some w' /\
    match body r with
    | Resolved data =>
        if u_success data
        then uploadStatus (ui w') = "Upload successful!" /\
             inflight w' = (inflight w ++ [AwaitFiles; AwaitTimeout])%list /\
             trace w' = (trace w ++ [Fetch (PostUpload f); Fetch GetFiles;
                                     SetTimeout 3000])%list
        else uploadStatus (ui w') = "Uploading..." /\
             inflight w' = inflight w /\
             trace w' = (trace w ++ [Fetch (PostUpload f)])%list
    | Rejected err =>
        uploadStatus (ui w') = ("Upload failed: " ++ err)%string /\
        inflight w' = inflight w /\
        trace w' = (trace w ++ [Fetch (PostUpload f)])%list
    end.
Proof.
  intros f r w. eexists. split; [apply call_handleFileUpload|].
  unfold handleFileUpload_resume.
  destruct (body r) as [data|err]; [destruct (u_success data)|];
    cbn; rewrite <- ?app_assoc; repeat split; reflexivity.
Qed.

(** C5, at the failing input.  An upload of [laps.csv] answered by a
    response with [success=false]: no timer is set (nothing will clear
    the indicator), and the indicator still reads ["Uploading..."]; no
    failure text is ever written on this path. *)
Theorem upload_declared_failure_keeps_uploading_text :
  exists w',
    call (handleFileUpload (Some SampleUpload.laps))
         (UploadReply (replied SampleUpload.refused))
         SampleUpload.file_manager = Some w' /\
    uploadStatus (ui w') = "Uploading..." /\
    inflight w' = [] /\
    count is_timer w' = 0%nat.
Proof.
  eexists. split; [apply call_handleFileUpload|].
  repeat split.
Qed.

(** When the upload request or its decoding throws, the indicator shows
    the failure text and no timer is set by this call. *)
Lemma upload_transport_failure_persists : forall f r err w,
  body r = Rejected err ->
  exists w',
    call (handleFileUpload (Some f)) (UploadReply r) w = Some w' /\
    uploadStatus (ui w') = "Upload failed: " ++ err /\
    inflight w' = inflight w /\
    count is_timer w' = count is_timer w.
Proof.
  intros f r err w Hr. eexists. split; [apply call_handleFileUpload|].
  unfold handleFileUpload_resume. rewrite Hr.
  repeat split. cbn. unfold count. cbn [trace].
  rewrite filter_app. cbn. rewrite app_nil_r. reflexivity.
Qed.

(** A timer left over from an earlier successful upload still fires: it
    blanks the indicator even when a later upload has failed in the
    meantime. *)
Lemma earlier_timer_blanks_failure_text :
  exists w',
    run [PickFile (Some SampleUpload.laps);
         Complete 0 (UploadReply (replied {| u_success := true |}));
         PickFile (Some SampleUpload.laps);
         Complete 2 (UploadReply (Rejected "Failed to fetch"));
         Complete 1 TimerFired]
        SampleUpload.file_manager = Some w' /\
    uploadStatus (ui w') = "".
Proof. eexists. split; vm_compute; reflexivity. Qed.

(** C6.  An upload whose reply is a body with [success] set issues the
    file-list request exactly once (and parks its continuation); an
    upload answered by a body with [success] unset, or whose request or
    decoding throws, issues no file-list request. *)
Theorem upload_refreshes_list_once_on_success : forall f w,
  (forall resp data,
     json resp = Resolved data -> u_success data = true ->
     exists w',
       call (handleFileUpload (Some f)) (UploadReply (Resolved resp)) w
         = Some w' /\
       count is_fetch_files w' = (count is_fetch_files w + 1)%nat /\
       trace w' = (trace w ++ [Fetch (PostUpload f); Fetch GetFiles;
                               SetTimeout 3000])%list /\
       inflight w' = (inflight w ++ [AwaitFiles; AwaitTimeout])%list) /\
  (forall resp data,
     json resp = Resolved data -> u_success data = false ->
     exists w',
       call (handleFileUpload (Some f)) (UploadReply (Resolved resp)) w
         = Some w' /\
       count is_fetch_files w' = count is_fetch_files w /\
       trace w' = (trace w ++ [Fetch (PostUpload f)])%list /\
       inflight w' = inflight w) /\
  (forall r err,
     r = Rejected err \/ (exists resp, r = Resolved resp /\
                                       json resp = Rejected err) ->
     exists w',
       call (handleFileUpload (Some f)) (UploadReply r) w = Some w' /\
       count is_fetch_files w' = count is_fetch_files w /\
       trace w' = (trace w ++ [Fetch (PostUpload f)])%list /\
       inflight w' = inflight w).
Proof.
  intros f w. split; [|split].
  - intros resp data Hj Hs. eexists.
    split; [apply call_handleFileUpload|].
    unfold handleFileUpload_resume, count. cbn [body]. rewrite Hj, Hs.
    cbn. rewrite !filter_app, !length_app, <- !app_assoc. cbn.
    repeat split. lia.
  - intros resp data Hj Hs. eexists.
    split; [apply call_handleFileUpload|].
    unfold handleFileUpload_resume, count. cbn [body]. rewrite Hj, Hs.
    cbn. rewrite !filter_app, !length_app. cbn. repeat split. lia.
  - intros r err Hr. eexists. split; [apply call_handleFileUpload|].
    assert (Hb : body r = Rejected err).
    { destruct Hr as [-> | [resp [-> Hj]]]; [reflexivity | exact Hj]. }
    unfold handleFileUpload_resume, count. rewrite Hb.
    cbn. rewrite !filter_app, !length_app. cbn. repeat split. lia.
Qed.

Lemma upload_refreshes_list_once_on_success_witness :
  (exists w',
     call (handleFileUpload (Some SampleUpload.laps))
          (UploadReply (replied {| u_success := true |}))
          SampleUpload.file_manager = Some w' /\
     count is_fetch_files w' = 1%nat /\
     trace w' = [Fetch (PostUpload SampleUpload.laps); Fetch GetFiles;
                 SetTimeout 3000]) /\
  (exists w',
     call (handleFileUpload (Some SampleUpload.laps))
          (UploadReply (replied SampleUpload.refused))
          SampleUpload.file_manager = Some w' /\
     count is_fetch_files w' = 0%nat) /\
  (exists w',
     call (handleFileUpload (Some SampleUpload.laps))
          (UploadReply (Rejected "Failed to fetch"))
          SampleUpload.file_manager = Some w' /\
     count is_fetch_files w' = 0%nat).
Proof.
  destruct (upload_refreshes_list_once_on_success SampleUpload.laps
              SampleUpload.file_manager) as [Hok [Hno Hthrown]].
  split; [|split].
  - destruct (Hok (http_200 {| u_success := true |}) {| u_success := true |}
                eq_refl eq_refl) as [w' [Hc [Hn [Ht _]]]].
    exists w'. repeat split; assumption.
  - destruct (Hno (http_200 SampleUpload.refused) SampleUpload.refused
                eq_refl eq_refl) as [w' [Hc [Hn _]]].
    exists w'. split; assumption.
  - destruct (Hthrown (Rejected "Failed to fetch") "Failed to fetch"
                (or_introl eq_refl)) as [w' [Hc [Hn _]]].
    exists w'. split; assumption.
Defined.

(** ** [fetchF1Data] and [fetchInsights] *)




(** * Further properties of the controller *)

(** ** Induction over reachable worlds *)

Lemma run_invariant : forall (P : World -> Prop),
  (forall e w w', fire e w = Some w' -> P w -> P w') ->
  forall es w w', run es w = Some w' -> P w -> P w'.
Proof.
  intros P Hstep. induction es as [|e es IH]; intros w w' H Hw; cbn in H.
  - injection H as <-. exact Hw.
  - destruct (fire e w) as [w1|] eqn:Hf; [|discriminate].
    exact (IH w1 w' H (Hstep e w w1 Hf Hw)).
Qed.

Lemma reachable_invariant : forall (P : World -> Prop),
  P mounted ->
  (forall e w w', fire e w = Some w' -> P w -> P w') ->
  forall w, reachable w -> P w.
Proof.
  intros P H0 Hstep w [es Hes]. exact (run_invariant P Hstep es _ _ Hes H0).
Qed.

Lemma reachable_mounted : reachable mounted.
Proof. exists []. reflexivity. Qed.

Lemma reachable_run : forall es w w',
  reachable w -> run es w = Some w' -> reachable w'.
Proof.
  intros es w w' [es0 H0] H. exists (es0 ++ es)%list.
  revert H0. generalize mounted. induction es0 as [|e es0 IH]; intros m H0.
  - cbn in H0. injection H0 as ->. exact H.
  - cbn in H0 |- *. destruct (fire e m); [|discriminate]. exact (IH _ H0).
Qed.

(** ** More on unparking *)

Lemma unpark_spec : forall n w p w',
  unpark n w = Some (p, w') ->
  nth_error (inflight w) n = Some p /\
  ui w' = ui w /\ trace w' = trace w /\
  inflight w' = (firstn n (inflight w) ++ skipn (S n) (inflight w))%list.
Proof.
  intros n w p w' H. unfold unpark in H.
  destruct (nth_error (inflight w) n) as [q|]; [|discriminate].
  injection H as -> <-. repeat split.
Qed.

Lemma nth_error_split_at : forall (A : Type) (l : list A) n x,
  nth_error l n = Some x ->
  l = (firstn n l ++ x :: skipn (S n) l)%list.
Proof.
  intros A l. induction l as [|a l IH]; intros [|n] x H; cbn in H;
    try discriminate.
  - injection H as ->. reflexivity.
  - cbn. f_equal. exact (IH n x H).
Qed.

Lemma unpark_at : forall u ps p qs t,
  unpark (length ps) {| ui := u; inflight := ps ++ p :: qs; trace := t |}
  = Some (p, {| ui := u; inflight := ps ++ qs; trace := t |}).
Proof.
  intros u ps p qs t. unfold unpark. cbn [inflight ui trace].
  rewrite nth_error_app2 by apply Nat.le_refl.
  rewrite Nat.sub_diag. cbn [nth_error].
  rewrite firstn_app, Nat.sub_diag, firstn_all. cbn [firstn].
  rewrite skipn_app.
  replace (S (length ps) - length ps)%nat with 1%nat by lia.
  rewrite skipn_all2 by (apply Nat.le_succ_diag_r).
  cbn [skipn app]. rewrite app_nil_r. reflexivity.
Qed.

(** ** [generateYearOptions] *)

Lemma year_option_iff : forall y,
  In y generateYearOptions <-> 1950 <= y <= 2024.
Proof.
  intros y. unfold generateYearOptions. cbv zeta.
  rewrite in_map_iff. split.
  - intros [k [<- Hk]]. apply in_seq in Hk.
    change (Z.to_nat (2024 - 1950 + 1)) with 75%nat in Hk. lia.
  - intros Hy. exists (Z.to_nat (2024 - y)). split; [lia|].
    apply in_seq. change (Z.to_nat (2024 - 1950 + 1)) with 75%nat. lia.
Qed.

(** X1.  The year selector offers exactly the years 1950 to 2024, each
    once, newest first: every entry is one less than the entry before
    it. *)
Theorem year_options_are_1950_to_2024 :
  (forall y, In y generateYearOptions <-> 1950 <= y <= 2024) /\
  length generateYearOptions = 75%nat /\
  hd_error generateYearOptions = Some 2024 /\
  (forall i a b,
     nth_error generateYearOptions i = Some a ->
     nth_error generateYearOptions (S i) = Some b ->
     b = a - 1).
Proof.
  split; [|split; [|split]].
  - exact year_option_iff.
  - reflexivity.
  - reflexivity.
  - unfold generateYearOptions. cbv zeta.
    change (Z.to_nat (2024 - 1950 + 1)) with 75%nat.
    intros i a b Ha Hb.
    rewrite nth_error_map in Ha, Hb.
    destruct (nth_error (List.seq 0 75) i) as [k|] eqn:Ek; [|discriminate].
    destruct (nth_error (List.seq 0 75) (S i)) as [k'|] eqn:Ek';
      [|discriminate].
    cbn [option_map] in Ha, Hb.
    assert (Ea : a = 2024 - Z.of_nat k) by congruence.
    assert (Eb : b = 2024 - Z.of_nat k') by congruence.
    clear Ha Hb.
    assert (Hi : (S i < length (List.seq 0 75))%nat)
      by (apply nth_error_Some; congruence).
    rewrite length_seq in Hi.
    rewrite nth_error_seq in Ek, Ek'.
    destruct (Nat.ltb i 75); [|discriminate].
    destruct (Nat.ltb (S i) 75); [|discriminate].
    assert (k = (0 + i)%nat) by congruence.
    assert (k' = (0 + S i)%nat) by congruence. lia.
Qed.

Lemma year_options_are_1950_to_2024_witness :
  In 1955 generateYearOptions /\ 2023 = 2024 - 1.
Proof.
  destruct year_options_are_1950_to_2024 as [Hin [_ [_ Hstep]]].
  split.
  - apply Hin. lia.
  - exact (Hstep 0%nat 2024 2023 eq_refl eq_refl).
Defined.

(** ** The standings getters *)

Lemma firstn_prefix : forall (A : Type) n (l : list A),
  (length (firstn n l) <= n)%nat /\
  exists rest, l = (firstn n l ++ rest)%list /\
               ((length l <= n)%nat -> rest = []).
Proof.
  intros A n l. split; [apply firstn_le_length|].
  exists (skipn n l). split; [symmetry; apply firstn_skipn|].
  intros H. apply skipn_all2. exact H.
Qed.

(** X2.  The driver table never has more than ten rows; it is a prefix
    of the snapshot's driver standings, the whole of them when they are
    ten or fewer; and it is empty when no snapshot is cached or the
    snapshot has no driver standings. *)
Theorem driver_table_is_prefix_of_at_most_ten : forall s,
  (length (getDriverStandings s) <= 10)%nat /\
  (forall d rows,
     f1Data s = Some d -> driver_standings d = Some rows ->
     exists rest,
       rows = (getDriverStandings s ++ rest)%list /\
       ((length rows <= 10)%nat -> rest = [])) /\
  (f1Data s = None -> getDriverStandings s = []) /\
  (forall d, f1Data s = Some d -> driver_standings d = None ->
     getDriverStandings s = []).
Proof.
  intros s. unfold getDriverStandings. repeat split.
  - destruct (f1Data s) as [d|]; [destruct (driver_standings d)|];
      [apply firstn_le_length | cbn; lia | cbn; lia].
  - intros d rows -> ->. apply firstn_prefix.
  - intros ->. reflexivity.
  - intros d -> ->. reflexivity.
Qed.

Lemma driver_table_is_prefix_of_at_most_ten_witness :
  exists rest,
    SampleSeason.twelve = (getDriverStandings SampleSeason.loaded ++ rest)%list
    /\ length rest = 2%nat.
Proof.
  destruct (driver_table_is_prefix_of_at_most_ten SampleSeason.loaded)
    as [_ [H _]].
  destruct (H SampleSeason.snapshot SampleSeason.twelve eq_refl eq_refl)
    as [rest [Hrest _]].
  exists rest. split; [exact Hrest|].
  apply (f_equal (@length DriverRow)) in Hrest.
  rewrite length_app in Hrest. cbn in Hrest. lia.
Defined.

(** X3.  The constructor table obeys the same rule on the snapshot's
    constructor standings. *)
Theorem constructor_table_is_prefix_of_at_most_ten : forall s,
  (length (getConstructorStandings s) <= 10)%nat /\
  (forall d rows,
     f1Data s = Some d -> constructor_standings d = Some rows ->
     exists rest,
       rows = (getConstructorStandings s ++ rest)%list /\
       ((length rows <= 10)%nat -> rest = [])) /\
  (f1Data s = None -> getConstructorStandings s = []) /\
  (forall d, f1Data s = Some d -> constructor_standings d = None ->
     getConstructorStandings s = []).
Proof.
  intros s. unfold getConstructorStandings. repeat split.
  - destruct (f1Data s) as [d|]; [destruct (constructor_standings d)|];
      [apply firstn_le_length | cbn; lia | cbn; lia].
  - intros d rows -> ->. apply firstn_prefix.
  - intros ->. reflexivity.
  - intros d -> ->. reflexivity.
Qed.

Lemma constructor_table_is_prefix_of_at_most_ten_witness :
  getConstructorStandings SampleSeason.loaded = [].
Proof.
  destruct (constructor_table_is_prefix_of_at_most_ten SampleSeason.loaded)
    as [_ [_ [_ H]]].
  exact (H SampleSeason.snapshot eq_refl eq_refl).
Defined.

Lemma filter_length_remove : forall (A : Type) (f : A -> bool) l n p,
  nth_error l n = Some p ->
  length (filter f l) =
  (length (filter f (firstn n l ++ skipn (S n) l))
   + if f p then 1 else 0)%nat.
Proof.
  intros A f l n p H. rewrite (nth_error_split_at A l n p H) at 1.
  rewrite !filter_app. cbn [filter]. destruct (f p);
    rewrite !length_app; cbn [length]; lia.
Qed.

(** ** The [loading] flag *)

(** What a continuation does to the flag and to the loads in flight. *)
Lemma resume_loads : forall p r k w,
  resume p r = Some k ->
  loading (ui (k w)) = (if awaits_load p then false else loading (ui w)) /\
  outstanding_loads (k w) = outstanding_loads w.
Proof.
  intros p r k w H. unfold outstanding_loads.
  resume_inv; cbn [awaits_load]; unfold_resumes; case_split; cbn;
    rewrite ?filter_app, ?app_nil_r; cbn; rewrite ?app_nil_r;
    split; reflexivity.
Qed.

Lemma fire_loads : forall e w w',
  fire e w = Some w' ->
  outstanding_loads w = (if loading (ui w) then 1 else 0)%nat ->
  outstanding_loads w' = (if loading (ui w') then 1 else 0)%nat.
Proof.
  intros e w w' H Inv. destruct e; fire_inv H.
  - unfold outstanding_loads in *. cbn.
    rewrite filter_app, length_app, Inv. reflexivity.
  - exact Inv.
  - exact Inv.
  - unfold outstanding_loads in *. cbn.
    rewrite filter_app, length_app, Inv.
    match goal with
    | H : _ && negb (loading (ui w)) = true |- _ =>
        apply andb_prop in H; destruct H as [_ H];
        apply negb_true_iff in H; rewrite H
    end. reflexivity.
  - destruct file; [|exact Inv].
    unfold outstanding_loads in *. cbn.
    rewrite filter_app, length_app, Inv. cbn. lia.
  - unfold outstanding_loads in *. cbn.
    rewrite filter_app, length_app, Inv. cbn. lia.
  - destruct confirmed; [|exact Inv].
    unfold outstanding_loads in *. cbn.
    rewrite filter_app, length_app, Inv. cbn. lia.
  - match goal with
    | Hu : unpark _ _ = Some _ |- _ =>
        apply unpark_spec in Hu;
        destruct Hu as [Hnth [Hui [Htrace Hinflight]]]
    end.
    match goal with
    | Hk : resume ?p ?r = Some ?k |- _ =>
        destruct (resume_loads p r k w0 Hk) as [Hl Ho]
    end.
    rewrite Ho, Hl.
    unfold outstanding_loads in *. rewrite Hinflight, Hui.
    rewrite (filter_length_remove _ awaits_load _ _ _ Hnth) in Inv.
    destruct (awaits_load p0); destruct (loading (ui w)); lia.
Qed.

(** X4.  In every reachable world the [loading] flag is set exactly when
    a snapshot or a historical request is outstanding, and there is never
    more than one such request: the two buttons that start one are
    disabled while the flag is set, and each continuation lowers it in
    its [finally]. *)
Theorem loading_flag_tracks_the_one_load : forall w,
  reachable w ->
  outstanding_loads w = (if loading (ui w) then 1 else 0)%nat /\
  (loading (ui w) = true <->
   exists p, In p (inflight w) /\ awaits_load p = true).
Proof.
  intros w Hw.
  assert (Hc : outstanding_loads w = (if loading (ui w) then 1 else 0)%nat).
  { revert w Hw. apply reachable_invariant; [reflexivity|].
    exact fire_loads. }
  split; [exact Hc|]. unfold outstanding_loads in Hc. split.
  - intros Hl. rewrite Hl in Hc.
    destruct (filter awaits_load (inflight w)) as [|p ps] eqn:E;
      [discriminate|].
    exists p. apply filter_In. rewrite E. left. reflexivity.
  - intros [p [Hin Hp]]. destruct (loading (ui w)); [reflexivity|].
    assert (Hf : In p (filter awaits_load (inflight w)))
      by (apply filter_In; split; assumption).
    destruct (filter awaits_load (inflight w)); [contradiction|discriminate].
Qed.

Lemma loading_flag_tracks_the_one_load_witness :
  exists w,
    run [ClickFetch] mounted = Some w /\
    loading (ui w) = true /\ outstanding_loads w = 1%nat.
Proof.
  eexists. split; [reflexivity|]. split; [reflexivity|].
  refine (proj1 (loading_flag_tracks_the_one_load _ _)).
  exists [ClickFetch]. reflexivity.
Defined.

(** ** Tabs and panels *)

Lemma reachable_active_tab : forall w,
  reachable w ->
  In (activeTab (ui w))
     ["standings"; "constructors"; "race"; "historical"; "files";
      "file-analysis"] /\
  (activeTab (ui w) = "file-analysis" ->
   selectedFileAnalysis (ui w) <> None).
Proof.
  intros w Hw. pose proof (reachable_on_listed_tab w Hw) as H.
  unfold on_listed_tab in H. split.
  - unfold availableTabs, tab_buttons in H. rewrite map_app in H.
    apply in_app_or in H. destruct H as [H|H].
    + cbn in H |- *. tauto.
    + destruct (selectedFileAnalysis (ui w)); cbn in H |- *; tauto.
  - intros E. apply tab_listed_iff_cached. rewrite <- E. exact H.
Qed.

(** X5.  In every reachable world the active tab is one of the tabs that
    are rendered: it is one of the six tab ids, and it is
    ["file-analysis"] only while an analysis is cached. *)
Theorem active_tab_is_always_rendered : forall w,
  reachable w ->
  In (activeTab (ui w)) (availableTabs (ui w)) /\
  In (activeTab (ui w))
     ["standings"; "constructors"; "race"; "historical"; "files";
      "file-analysis"] /\
  (activeTab (ui w) = "file-analysis" ->
   selectedFileAnalysis (ui w) <> None).
Proof.
  intros w Hw. split; [exact (reachable_on_listed_tab w Hw)|].
  exact (reachable_active_tab w Hw).
Qed.

Lemma active_tab_is_always_rendered_witness :
  In (activeTab (ui mounted)) (availableTabs (ui mounted)).
Proof.
  exact (proj1 (active_tab_is_always_rendered mounted reachable_mounted)).
Defined.

(** X6.  In every reachable world exactly one of the six panel guards of
    the card holds, the one of the active tab: the component never
    selects no panel block and never selects two.  (Whether the selected
    block then renders without throwing is not part of this.) *)
Theorem exactly_one_panel_guard_holds : forall w,
  reachable w -> panels (ui w) = [activeTab (ui w)].
Proof.
  intros w Hw.
  destruct (reachable_active_tab w Hw) as [Hsix Hfa].
  unfold panels. cbn in Hsix.
  destruct Hsix as [E|[E|[E|[E|[E|[E|[]]]]]]]; rewrite <- E in *;
    try reflexivity.
  destruct (selectedFileAnalysis (ui w)); [reflexivity|].
  exfalso. apply Hfa; reflexivity.
Qed.

Lemma exactly_one_panel_guard_holds_witness :
  exists w,
    run [Complete 0 (FilesReply (replied {| fb_files := Sample.files_ab |}));
         ClickTab "files"; ClickAnalyze 1;
         Complete 0 (AnalyzeReply (replied Sample.analysis_a))] mounted
      = Some w /\
    panels (ui w) = ["file-analysis"].
Proof.
  destruct (run [Complete 0 (FilesReply
                   (replied {| fb_files := Sample.files_ab |}));
                 ClickTab "files"; ClickAnalyze 1;
                 Complete 0 (AnalyzeReply (replied Sample.analysis_a))]
                mounted) as [w|] eqn:Hrun; [|discriminate Hrun].
  assert (Hw : reachable w) by (eexists; exact Hrun).
  pose proof (exactly_one_panel_guard_holds w Hw) as H.
  vm_compute in Hrun. injection Hrun as <-.
  eexists. split; [reflexivity|]. exact H.
Defined.

(** X8.  Clicking a rendered tab makes it the active tab and changes
    nothing else; clicking it again changes nothing at all; a tab that
    is not rendered cannot be clicked. *)
Theorem tab_click_selects_and_is_idempotent : forall w tab,
  (In tab (availableTabs (ui w)) ->
   exists w',
     fire (ClickTab tab) w = Some w' /\
     activeTab (ui w') = tab /\
     fire (ClickTab tab) w' = Some w' /\
     availableTabs (ui w') = availableTabs (ui w) /\
     inflight w' = inflight w /\ trace w' = trace w /\
     f1Data (ui w') = f1Data (ui w) /\
     insights (ui w') = insights (ui w) /\
     files (ui w') = files (ui w) /\
     loading (ui w') = loading (ui w) /\
     error (ui w') = error (ui w) /\
     uploadStatus (ui w') = uploadStatus (ui w) /\
     selectedYear (ui w') = selectedYear (ui w) /\
     historicalData (ui w') = historicalData (ui w) /\
     selectedFileAnalysis (ui w') = selectedFileAnalysis (ui w) /\
     analyzingFileId (ui w') = analyzingFileId (ui w)) /\
  (~ In tab (availableTabs (ui w)) -> fire (ClickTab tab) w = None).
Proof.
  intros w tab. split.
  - intros Hin.
    assert (Hex : existsb (String.eqb tab) (availableTabs (ui w)) = true).
    { apply existsb_exists. exists tab. split; [exact Hin|].
      apply String.eqb_refl. }
    exists (setActiveTab tab w). unfold fire. rewrite Hex.
    split; [reflexivity|]. split; [reflexivity|]. split.
    + cbn [ui setActiveTab update].
      change (availableTabs _) with (availableTabs (ui w)).
      rewrite Hex. reflexivity.
    + repeat split.
  - intros Hnot. unfold fire.
    destruct (existsb (String.eqb tab) (availableTabs (ui w))) eqn:E;
      [|reflexivity].
    apply existsb_exists in E. destruct E as [t [Hin Ht]].
    apply String.eqb_eq in Ht. subst t. contradiction.
Qed.

Lemma tab_click_selects_and_is_idempotent_witness :
  exists w',
    fire (ClickTab "historical") mounted = Some w' /\
    activeTab (ui w') = "historical" /\
    fire (ClickTab "historical") w' = Some w'.
Proof.
  destruct (tab_click_selects_and_is_idempotent mounted "historical")
    as [H _].
  destruct H as [w' [H1 [H2 [H3 _]]]].
  - cbn. tauto.
  - exists w'. repeat split; assumption.
Defined.

(** ** The analyze spinner *)

(** Handlers only ever add to the list of suspended handlers. *)
Lemma resume_appends : forall p r k w,
  resume p r = Some k ->
  exists ps, inflight (k w) = (inflight w ++ ps)%list.
Proof.
  intros p r k w H.
  resume_inv; unfold_resumes; case_split; cbn;
    first [ exists []; rewrite app_nil_r; reflexivity
          | eexists; rewrite <- ?app_assoc; reflexivity ].
Qed.

Lemma In_after_removal : forall (A : Type) (l : list A) n p x,
  nth_error l n = Some p -> In x l -> x <> p ->
  In x (firstn n l ++ skipn (S n) l).
Proof.
  intros A l n p x Hn Hin Hne.
  rewrite (nth_error_split_at A l n p Hn) in Hin.
  apply in_app_or in Hin. apply in_or_app.
  destruct Hin as [H|[H|H]]; [left; exact H | congruence | right; exact H].
Qed.

Lemma fire_spinner : forall e w w',
  fire e w = Some w' ->
  (forall i, analyzingFileId (ui w) = Some i ->
             In (AwaitAnalyze i) (inflight w)) ->
  forall i, analyzingFileId (ui w') = Some i ->
            In (AwaitAnalyze i) (inflight w').
Proof.
  intros e w w' H Inv i. destruct e; fire_inv H.
  - cbn. intros Hi. apply in_or_app. left. exact (Inv i Hi).
  - exact (Inv i).
  - exact (Inv i).
  - cbn. intros Hi. apply in_or_app. left. exact (Inv i Hi).
  - destruct file; [|exact (Inv i)].
    cbn. intros Hi. apply in_or_app. left. exact (Inv i Hi).
  - cbn. intros Hi. injection Hi as <-. apply in_or_app. right.
    left. reflexivity.
  - destruct confirmed; [|exact (Inv i)].
    cbn. intros Hi. apply in_or_app. left. exact (Inv i Hi).
  - match goal with
    | Hu : unpark _ _ = Some _ |- _ =>
        apply unpark_spec in Hu;
        destruct Hu as [Hnth [Hui [Htrace Hinflight]]]
    end.
    match goal with
    | Hk : resume ?p ?r = Some ?k |- _ =>
        destruct (resume_appends p r k w0 Hk) as [ps Hps];
        destruct (analyze_event (Complete n r)) eqn:Ea
    end.
    + destruct r; try discriminate Ea.
      match goal with
      | Hk : resume ?p _ = Some _ |- _ =>
          destruct p; cbn in Hk; try discriminate Hk; injection Hk as <-
      end.
      rewrite analyzeFile_resume_clears. discriminate.
    + match goal with
      | Hk : resume ?p ?r = Some ?k |- _ =>
          rewrite (resume_keeps_analyzingFileId p r k w0 Hk)
      end.
      * rewrite Hui. intros Hi. rewrite Hps, Hinflight.
        apply in_or_app. left.
        apply (In_after_removal _ _ _ _ _ Hnth (Inv i Hi)).
        intros <-.
        match goal with
        | Hk : resume _ ?r = Some _ |- _ =>
            destruct r; cbn in Hk; discriminate
        end.
      * intros r' ->. discriminate Ea.
Qed.

(** X7.  In every reachable world, when [analyzingFileId] names a file,
    the analyze request for that file is still outstanding: a button
    shows "Analyzing..." only while its own request is in flight. *)
Theorem spinner_has_an_outstanding_request : forall w,
  reachable w ->
  forall i, analyzingFileId (ui w) = Some i ->
            In (AwaitAnalyze i) (inflight w).
Proof.
  apply (reachable_invariant
           (fun w => forall i, analyzingFileId (ui w) = Some i ->
                               In (AwaitAnalyze i) (inflight w))).
  - intros i Hi. discriminate Hi.
  - exact fire_spinner.
Qed.

Lemma spinner_has_an_outstanding_request_witness :
  exists w,
    run [ClickTab "files";
         Complete 0 (FilesReply (replied {| fb_files := Sample.files_ab |}));
         ClickAnalyze 2] mounted = Some w /\
    analyzingFileId (ui w) = Some 2 /\
    In (AwaitAnalyze 2) (inflight w).
Proof.
  eexists. split; [vm_compute; reflexivity|]. split; [reflexivity|].
  apply spinner_has_an_outstanding_request; [|reflexivity].
  exists [ClickTab "files";
          Complete 0 (FilesReply (replied {| fb_files := Sample.files_ab |}));
          ClickAnalyze 2].
  vm_compute. reflexivity.
Defined.

(** ** Outcomes of the two loads *)

Lemma or_default_nonempty : forall m d, d <> "" -> or_default m d <> "".
Proof.
  intros [s|] d Hd; cbn; [|exact Hd].
  destruct (String.eqb s "") eqn:E; [exact Hd|].
  apply String.eqb_neq. exact E.
Qed.

(** X9.  However a historical load ends, [loading] is off afterwards and
    the panel is left with either the season of a success reply and no
    error, or no season and a non-empty error text; it never has both
    and never has neither, whatever was cached or shown before. *)
Theorem historical_load_ends_with_season_or_error : forall year r w,
  exists w',
    call (fetchHistoricalData year) (HistoricalReply r) w = Some w' /\
    loading (ui w') = false /\
    ((exists data,
        body r = Resolved data /\ h_success data = true /\
        historicalData (ui w') = Some data /\ error (ui w') = None)
     \/
     (historicalData (ui w') = None /\
      exists m, error (ui w') = Some m /\ m <> "")).
Proof.
  intros year r w. eexists. split; [apply call_fetchHistoricalData|].
  split; [reflexivity|].
  unfold fetchHistoricalData_resume, seq.
  destruct (body r) as [data|err] eqn:Eb;
    [destruct (h_success data) eqn:Es|].
  - left. exists data. repeat split. exact Es.
  - right. split; [reflexivity|]. eexists. split; [reflexivity|].
    apply or_default_nonempty. discriminate.
  - right. split; [reflexivity|]. eexists. split; [reflexivity|].
    discriminate.
Qed.

Lemma historical_load_ends_with_season_or_error_witness :
  (exists w',
     call (fetchHistoricalData 1954)
          (HistoricalReply (replied SampleHistory.season_1954))
          mounted = Some w' /\
     historicalData (ui w') = Some SampleHistory.season_1954 /\
     error (ui w') = None) /\
  (exists w',
     call (fetchHistoricalData 1955)
          (HistoricalReply (replied SampleHistory.no_data))
          SampleHistory.showing_1954 = Some w' /\
     historicalData (ui w') = None /\
     error (ui w') = Some "no data").
Proof.
  split.
  - destruct (historical_load_ends_with_season_or_error 1954
                (replied SampleHistory.season_1954) mounted)
      as [w' [Hc [_ [[data [Hb [_ [Hd He]]]]|[Hd _]]]]].
    + exists w'. split; [exact Hc|]. split; [|exact He].
      cbn in Hb. injection Hb as <-. exact Hd.
    + exfalso. rewrite call_fetchHistoricalData in Hc.
      injection Hc as <-. discriminate Hd.
  - destruct (historical_load_ends_with_season_or_error 1955
                (replied SampleHistory.no_data) SampleHistory.showing_1954)
      as [w' [Hc [_ [[data [Hb [Hs _]]]|[Hd [m [He _]]]]]]].
    + exfalso. cbn in Hb. injection Hb as <-. discriminate Hs.
    + exists w'. split; [exact Hc|]. split; [exact Hd|].
      rewrite call_fetchHistoricalData in Hc. injection Hc as <-.
      reflexivity.
Defined.

(** X10.  However a snapshot fetch ends, [loading] is off afterwards and
    the banner is clear exactly when the fetch succeeded (an OK response
    whose body has [success] set): the error of an earlier attempt never
    survives a success, and every failure leaves a non-empty text.  The
    snapshot cache is written on success only. *)
Theorem snapshot_fetch_clears_or_sets_banner : forall r w,
  exists w',
    call fetchF1Data (FetchDataReply r) w = Some w' /\
    loading (ui w') = false /\
    (error (ui w') = None <->
     exists data, checked_body r = Resolved data /\ fd_success data = true) /\
    (forall m, error (ui w') = Some m -> m <> "") /\
    (forall data,
       checked_body r = Resolved data -> fd_success data = true ->
       f1Data (ui w') = fd_data data) /\
    ((forall data, checked_body r = Resolved data -> fd_success data = false)
     -> f1Data (ui w') = f1Data (ui w)).
Proof.
  intros r w. eexists. split; [apply call_fetchF1Data|].
  split; [reflexivity|].
  unfold fetchF1Data_resume, seq.
  destruct (checked_body r) as [data|err] eqn:Eb;
    [destruct (fd_success data) eqn:Es|]; cbn; repeat split.
  - intros _. exists data. split; [reflexivity | exact Es].
  - discriminate.
  - intros data' E. congruence.
  - intros H. specialize (H data eq_refl). congruence.
  - discriminate.
  - intros [data' [E Hs]]. congruence.
  - intros m E. injection E as <-. apply or_default_nonempty. discriminate.
  - intros data' E Hs. congruence.
  - discriminate.
  - intros [data' [E _]]. discriminate E.
  - intros m E. injection E as <-. discriminate.
  - intros data' E. discriminate E.
Qed.

Lemma snapshot_fetch_clears_or_sets_banner_witness :
  exists w',
    call fetchF1Data
         (FetchDataReply (replied
            {| fd_success := true; fd_message := None;
               fd_data := Some SampleSeason.snapshot |}))
         mounted = Some w' /\
    error (ui w') = None /\
    f1Data (ui w') = Some SampleSeason.snapshot.
Proof.
  destruct (snapshot_fetch_clears_or_sets_banner
              (replied {| fd_success := true; fd_message := None;
                          fd_data := Some SampleSeason.snapshot |})
              mounted) as [w' [Hc [_ [He [_ [Hd _]]]]]].
  exists w'. split; [exact Hc|]. split.
  - apply He. eexists. split; reflexivity.
  - exact (Hd _ eq_refl eq_refl).
Defined.

(** X11.  A response that is not OK is never decoded by the snapshot
    fetch: whatever its body says, the snapshot cache keeps its value, no
    insights request goes out, and the banner names the HTTP status. *)
Theorem non_ok_snapshot_response_is_not_read : forall resp w,
  ok resp = false ->
  exists w',
    call fetchF1Data (FetchDataReply (Resolved resp)) w = Some w' /\
    f1Data (ui w') = f1Data (ui w) /\
    inflight w' = inflight w /\
    count is_fetch_insights w' = count is_fetch_insights w /\
    error (ui w') =
      Some ("Backend connection failed: HTTP error! status: "
            ++ show (status resp)
            ++ ". Make sure your backend server is running on port 8000.").
Proof.
  intros resp w Hok. eexists. split; [apply call_fetchF1Data|].
  unfold fetchF1Data_resume, seq, checked_body. rewrite Hok.
  cbn. unfold count. cbn. rewrite filter_app, length_app. cbn.
  repeat split. lia.
Qed.

Lemma non_ok_snapshot_response_is_not_read_witness :
  exists w',
    call fetchF1Data
         (FetchDataReply (Resolved
            {| ok := false; status := 500;
               json := Resolved {| fd_success := true; fd_message := None;
                                   fd_data := Some SampleSeason.snapshot |} |}))
         mounted = Some w' /\
    f1Data (ui w') = None /\
    error (ui w') =
      Some "Backend connection failed: HTTP error! status: 500. Make sure your backend server is running on port 8000.".
Proof.
  destruct (non_ok_snapshot_response_is_not_read
              {| ok := false; status := 500;
                 json := Resolved {| fd_success := true; fd_message := None;
                                     fd_data := Some SampleSeason.snapshot |} |}
              mounted eq_refl) as [w' [Hc [Hd [_ [_ He]]]]].
  exists w'. split; [exact Hc|]. split; [exact Hd | exact He].
Defined.

(** ** [deleteFile] and the list refresh *)

(** X13.  A confirmed delete whose request returns issues the file-list
    request exactly once, whether or not it retracted the analysis view;
    a delete whose request throws issues none and changes no state; a
    cancelled delete issues no request at all. *)
Theorem delete_refreshes_list_once_when_it_returns : forall fileId r w,
  (exists w',
     call (deleteFile fileId true) (DeleteReply r) w = Some w' /\
     count is_fetch_files w' =
       (count is_fetch_files w +
        match r with Resolved _ => 1 | Rejected _ => 0 end)%nat /\
     match r with
     | Resolved _ => inflight w' = (inflight w ++ [AwaitFiles])%list
     | Rejected err =>
         inflight w' = inflight w /\ ui w' = ui w /\
         trace w' = (trace w ++ [Fetch (DeleteFile fileId);
                       ConsoleError "Failed to delete file:" err])%list
     end) /\
  trace (deleteFile fileId false w) = trace w.
Proof.
  intros fileId r w. split; [|reflexivity].
  eexists. split; [apply call_deleteFile|].
  unfold deleteFile_resume, count, seq.
  destruct r as [u|err];
    [destruct (shows_deleted (selectedFileAnalysis (ui w)) (files (ui w))
                 fileId)|];
    cbn; rewrite ?filter_app, ?length_app, <- ?app_assoc; cbn;
    repeat split; lia.
Qed.

(** ** The banner *)

Lemma fire_error_nonempty : forall e w w',
  fire e w = Some w' ->
  error (ui w) <> Some "" -> error (ui w') <> Some "".
Proof.
  intros e w w' H Inv. destruct e; step_inv H;
    try exact Inv; try (cbn; discriminate).
  - destruct file; exact Inv.
  - destruct confirmed; exact Inv.
  - resume_inv; unfold_resumes; case_split; cbn; try exact Inv;
      try discriminate;
      intros E; injection E as E; revert E;
      apply or_default_nonempty; discriminate.
Qed.

(** X12.  In every reachable world the banner, when it shows, shows a
    non-empty text: every failure path writes a fixed prefix or falls
    back to a default when the server message is missing or empty. *)
Theorem banner_text_is_never_empty : forall w,
  reachable w -> forall m, error (ui w) = Some m -> m <> "".
Proof.
  intros w Hw m Hm E. subst m. revert Hm. revert w Hw.
  apply (reachable_invariant (fun w => error (ui w) <> Some "")).
  - discriminate.
  - exact fire_error_nonempty.
Qed.

Lemma banner_text_is_never_empty_witness :
  exists w,
    run [ClickFetch;
         Complete 1 (FetchDataReply (replied
           {| fd_success := false; fd_message := Some "";
              fd_data := None |}))] mounted = Some w /\
    error (ui w) = Some "Failed to fetch data" /\
    "Failed to fetch data" <> "".
Proof.
  eexists. split; [vm_compute; reflexivity|]. split; [reflexivity|].
  eapply banner_text_is_never_empty;
    [ exists [ClickFetch;
              Complete 1 (FetchDataReply (replied
                {| fd_success := false; fd_message := Some "";
                   fd_data := None |}))];
      vm_compute; reflexivity
    | reflexivity ].
Defined.

(** ** The year selector and the historical requests *)

Lemma historical_years_app : forall t1 t2,
  historical_years (t1 ++ t2) = (historical_years t1 ++ historical_years t2)%list.
Proof.
  induction t1 as [|e t1 IH]; intros t2; [reflexivity|].
  destruct e as [[]| | |]; cbn; rewrite ?IH; reflexivity.
Qed.

Lemma fire_years_in_range : forall e w w',
  fire e w = Some w' -> years_in_range w -> years_in_range w'.
Proof.
  intros e w w' H [Hsel Htr]. unfold years_in_range.
  destruct e; step_inv H.
  - cbn. rewrite historical_years_app, app_nil_r. split; assumption.
  - split; assumption.
  - cbn. split; [|assumption].
    match goal with
    | Hg : _ && existsb (Z.eqb year) generateYearOptions = true |- _ =>
        apply andb_prop in Hg; destruct Hg as [_ Hg];
        apply existsb_exists in Hg; destruct Hg as [y [Hin Hy]];
        apply Z.eqb_eq in Hy; subst y; exact Hin
    end.
  - cbn. rewrite historical_years_app. split; [assumption|].
    apply Forall_app. split; [assumption|].
    cbn. constructor; [assumption | constructor].
  - destruct file; cbn; rewrite ?historical_years_app, ?app_nil_r;
      split; assumption.
  - cbn. rewrite historical_years_app, app_nil_r. split; assumption.
  - destruct confirmed; cbn; rewrite ?historical_years_app, ?app_nil_r;
      split; assumption.
  - resume_inv; unfold_resumes; case_split; cbn;
      rewrite ?historical_years_app; cbn; rewrite ?app_nil_r;
      split; assumption.
Qed.

Lemma historical_years_complete : forall t y,
  In (Fetch (GetHistorical y)) t -> In y (historical_years t).
Proof.
  induction t as [|e t IH]; intros y H; [contradiction|].
  destruct H as [->|H]; [left; reflexivity|].
  specialize (IH y H). destruct e as [[]| | |]; cbn; auto.
Qed.

(** X14.  In every reachable world the selected year is one of 1950 to
    2024, and so is the year of every historical request that ever went
    out: the selector only offers those years, and the Load Data button
    always asks for the selected one. *)
Theorem historical_requests_stay_in_range : forall w,
  reachable w ->
  1950 <= selectedYear (ui w) <= 2024 /\
  (forall y, In (Fetch (GetHistorical y)) (trace w) -> 1950 <= y <= 2024).
Proof.
  intros w Hw.
  assert (H : years_in_range w).
  { revert w Hw. apply reachable_invariant; [|exact fire_years_in_range].
    split.
    - apply year_option_iff. cbn. lia.
    - cbn. constructor. }
  destruct H as [Hsel Htr]. split.
  - apply year_option_iff. exact Hsel.
  - intros y Hy. apply year_option_iff.
    rewrite Forall_forall in Htr. apply Htr.
    apply historical_years_complete. exact Hy.
Qed.

Lemma historical_requests_stay_in_range_witness :
  exists w,
    run [ClickTab "historical"; ChangeYear 1955; ClickLoadData] mounted
      = Some w /\
    In (Fetch (GetHistorical 1955)) (trace w) /\
    1950 <= 1955 <= 2024.
Proof.
  eexists. split; [vm_compute; reflexivity|].
  split; [cbn; tauto|].
  eapply historical_requests_stay_in_range;
    [ exists [ClickTab "historical"; ChangeYear 1955; ClickLoadData];
      vm_compute; reflexivity
    | cbn; tauto ].
Defined.

(** ** Who writes which cell *)

Lemma run_frame : forall (A : Type) (cell : World -> A) (quiet : Event -> bool),
  (forall e w w', fire e w = Some w' -> quiet e = true -> cell w' = cell w) ->
  forall es w w',
    run es w = Some w' -> forallb quiet es = true -> cell w' = cell w.
Proof.
  intros A cell quiet Hstep. induction es as [|e es IH]; intros w w' H Hq.
  - cbn in H. injection H as <-. reflexivity.
  - cbn in H, Hq. apply andb_prop in Hq. destruct Hq as [He Hq].
    destruct (fire e w) as [w1|] eqn:Hf; [|discriminate].
    rewrite (IH w1 w' H Hq). exact (Hstep e w w1 Hf He).
Qed.

(** X15.  One step of the event loop changes a cache of backend data
    only if it is a completion of that cache's own request, with two
    exceptions the code makes on purpose: starting a historical load
    empties the historical cache, and a delete completion may empty the
    analysis cache. *)
Theorem caches_change_only_on_their_replies : forall e w w',
  fire e w = Some w' ->
  (f1Data (ui w') <> f1Data (ui w) ->
   exists n r, e = Complete n (FetchDataReply r)) /\
  (insights (ui w') <> insights (ui w) ->
   exists n r, e = Complete n (InsightsReply r)) /\
  (files (ui w') <> files (ui w) ->
   exists n r, e = Complete n (FilesReply r)) /\
  (historicalData (ui w') <> historicalData (ui w) ->
   e = ClickLoadData \/ exists n r, e = Complete n (HistoricalReply r)) /\
  (selectedFileAnalysis (ui w') <> selectedFileAnalysis (ui w) ->
   (exists n r, e = Complete n (AnalyzeReply r)) \/
   (exists n r, e = Complete n (DeleteReply r))).
Proof.
  intros e w w' H.
  destruct e; step_inv H; try resume_inv;
    repeat split; intros Hne;
    first [ solve [do 2 eexists; reflexivity]
          | solve [left; reflexivity]
          | solve [left; do 2 eexists; reflexivity]
          | solve [right; do 2 eexists; reflexivity]
          | exfalso; apply Hne; unfold_handlers; unfold_resumes;
            case_split; reflexivity ].
Qed.

Lemma caches_change_only_on_their_replies_witness :
  exists w',
    fire (Complete 0 (FilesReply (replied {| fb_files := Sample.files_ab |})))
         mounted = Some w' /\
    files (ui w') = Sample.files_ab /\
    exists n r,
      Complete 0 (FilesReply (replied {| fb_files := Sample.files_ab |}))
      = Complete n (FilesReply r).
Proof.
  assert (Hf : fire (Complete 0 (FilesReply
                 (replied {| fb_files := Sample.files_ab |}))) mounted
               = Some (fetchFiles_resume
                         (replied {| fb_files := Sample.files_ab |})
                         {| ui := initial_state; inflight := [];
                            trace := [Fetch GetFiles] |}))
    by reflexivity.
  eexists. split; [exact Hf|]. split; [reflexivity|].
  destruct (caches_change_only_on_their_replies _ _ _ Hf)
    as [_ [_ [H _]]].
  apply H. discriminate.
Defined.

Lemma fire_keeps_empty : forall c e w w',
  fire e w = Some w' -> fills c e = false ->
  is_empty c (ui w) = true -> is_empty c (ui w') = true.
Proof.
  intros c e w w' H Hq Hemp.
  destruct e; step_inv H; try resume_inv;
    destruct c; try discriminate Hq;
    unfold_handlers; unfold_resumes; case_split;
    first [ exact Hemp | reflexivity ].
Qed.

(** X16.  Each cache of backend data is still empty in any world reached
    from the mounted component without a completion of that cache's own
    request: no other handler ever puts data into it. *)
Theorem cache_stays_empty_until_its_reply : forall c es w,
  run es mounted = Some w ->
  forallb (fun e => negb (fills c e)) es = true ->
  is_empty c (ui w) = true.
Proof.
  intros c es w Hrun Hq.
  assert (Hinv : forall es w0 w1,
            run es w0 = Some w1 ->
            forallb (fun e => negb (fills c e)) es = true ->
            is_empty c (ui w0) = true -> is_empty c (ui w1) = true).
  { clear. induction es as [|e es IH]; intros w0 w1 H Hq Hemp.
    - cbn in H. injection H as <-. exact Hemp.
    - cbn in H, Hq. apply andb_prop in Hq. destruct Hq as [He Hq].
      destruct (fire e w0) as [w2|] eqn:Hf; [|discriminate].
      apply (IH w2 w1 H Hq). apply (fire_keeps_empty c e w0 w2 Hf); [|exact Hemp].
      apply negb_true_iff. exact He. }
  apply (Hinv es mounted w Hrun Hq). destruct c; reflexivity.
Qed.

Lemma cache_stays_empty_until_its_reply_witness :
  exists w,
    run [ClickFetch; ClickTab "files"; PickFile (Some SampleUpload.laps);
         Complete 2 (UploadReply (replied {| u_success := true |}));
         Complete 0 (FilesReply (replied {| fb_files := Sample.files_ab |}))]
        mounted = Some w /\
    f1Data (ui w) = None /\ getDriverStandings (ui w) = [].
Proof.
  destruct (run [ClickFetch; ClickTab "files";
                 PickFile (Some SampleUpload.laps);
                 Complete 2 (UploadReply (replied {| u_success := true |}));
                 Complete 0 (FilesReply
                   (replied {| fb_files := Sample.files_ab |}))] mounted)
    as [w|] eqn:Hrun; [|discriminate Hrun].
  exists w. split; [reflexivity|].
  pose proof (cache_stays_empty_until_its_reply SnapshotCache _ w Hrun
                eq_refl) as H.
  cbn [is_empty] in H. unfold getDriverStandings.
  destruct (f1Data (ui w)); [discriminate H|]. split; reflexivity.
Defined.

(** X17.  One step of the event loop changes a view or tracker cell only
    if it belongs to the feature that owns the cell: the banner and the
    [loading] flag change only in steps of the snapshot and historical
    loads, the upload indicator only on a file pick, an upload completion
    or the timer, the selected year only through the selector, the
    analyze tracker only in steps of an analyze call, and the active tab
    only on a tab click or an analyze or delete completion. *)
Theorem view_cells_change_only_in_their_feature : forall e w w',
  fire e w = Some w' ->
  (activeTab (ui w') <> activeTab (ui w) ->
   (exists tab, e = ClickTab tab) \/
   (exists n r, e = Complete n (AnalyzeReply r)) \/
   (exists n r, e = Complete n (DeleteReply r))) /\
  (loading (ui w') <> loading (ui w) -> load_event e = true) /\
  (error (ui w') <> error (ui w) -> load_event e = true) /\
  (uploadStatus (ui w') <> uploadStatus (ui w) ->
   (exists file, e = PickFile file) \/
   (exists n r, e = Complete n (UploadReply r)) \/
   (exists n, e = Complete n TimerFired)) /\
  (selectedYear (ui w') <> selectedYear (ui w) ->
   exists year, e = ChangeYear year) /\
  (analyzingFileId (ui w') <> analyzingFileId (ui w) ->
   analyze_event e = true).
Proof.
  intros e w w' H.
  destruct e; step_inv H; try resume_inv;
    repeat split; intros Hne;
    first [ reflexivity
          | solve [eexists; reflexivity]
          | solve [left; eexists; reflexivity]
          | solve [right; left; do 2 eexists; reflexivity]
          | solve [right; right; do 2 eexists; reflexivity]
          | solve [right; right; eexists; reflexivity]
          | exfalso; apply Hne; unfold_handlers; unfold_resumes;
            case_split; reflexivity ].
Qed.

Lemma view_cells_change_only_in_their_feature_witness :
  exists w',
    fire ClickFetch mounted = Some w' /\
    loading (ui w') = true /\ load_event ClickFetch = true.
Proof.
  assert (Hf : fire ClickFetch mounted = Some (fetchF1Data mounted))
    by reflexivity.
  eexists. split; [exact Hf|]. split; [reflexivity|].
  destruct (view_cells_change_only_in_their_feature _ _ _ Hf)
    as [_ [H _]].
  apply H. discriminate.
Defined.

(** ** Whole scenarios *)

Lemma fire_complete_at : forall w ps p qs r k,
  inflight w = (ps ++ p :: qs)%list ->
  resume p r = Some k ->
  fire (Complete (length ps) r) w =
  Some (k {| ui := ui w; inflight := ps ++ qs; trace := trace w |}).
Proof.
  intros [u fl t] ps p qs r k Hfl Hk. cbn in Hfl. subst fl.
  unfold fire. rewrite unpark_at, Hk. reflexivity.
Qed.

Lemma run_step : forall e es w w1 w2,
  fire e w = Some w1 -> run es w1 = Some w2 -> run (e :: es) w = Some w2.
Proof. intros e es w w1 w2 H1 H2. cbn. rewrite H1. exact H2. Qed.

(** X18.  A successful upload followed by the list reply and the timer:
    with the file manager open, the three completions leave the file list
    equal to what the server listed and the indicator blank again, with
    nothing left in flight from the scenario; in between, once the list
    has arrived and before the timer, the indicator reads
    ["Upload successful!"] in green. *)
Theorem upload_refresh_timer_scenario : forall f listing w,
  activeTab (ui w) = "files" ->
  (exists w',
     run (upload_scenario (length (inflight w)) f listing) w = Some w' /\
     files (ui w') = listing /\
     uploadStatus (ui w') = "" /\
     status_color (ui w') = None /\
     inflight w' = inflight w /\
     trace w' = (trace w ++ [Fetch (PostUpload f); Fetch GetFiles;
                             SetTimeout 3000])%list /\
     activeTab (ui w') = "files" /\
     selectedFileAnalysis (ui w') = selectedFileAnalysis (ui w)) /\
  (exists w1,
     run (firstn 3 (upload_scenario (length (inflight w)) f listing)) w
       = Some w1 /\
     files (ui w1) = listing /\
     uploadStatus (ui w1) = "Upload successful!" /\
     status_color (ui w1) = Some "#4ade80" /\
     inflight w1 = (inflight w ++ [AwaitTimeout])%list).
Proof.
  intros f listing w Hact.
  assert (H1 : fire (PickFile (Some f)) w = Some (handleFileUpload (Some f) w)).
  { unfold fire. rewrite Hact. reflexivity. }
  split.
  - eexists. split.
    + unfold upload_scenario.
      eapply run_step; [exact H1|].
      eapply run_step.
      { apply (fire_complete_at _ (inflight w) AwaitUpload []);
          reflexivity. }
      eapply run_step.
      { apply (fire_complete_at _ (inflight w) AwaitFiles [AwaitTimeout]);
          [cbn; rewrite app_nil_r, <- app_assoc; reflexivity | reflexivity]. }
      eapply run_step.
      { apply (fire_complete_at _ (inflight w) AwaitTimeout []);
          reflexivity. }
      reflexivity.
    + cbn. rewrite app_nil_r, <- !app_assoc. cbn. rewrite Hact.
      repeat split.
  - eexists. split.
    + unfold upload_scenario. cbn [firstn].
      eapply run_step; [exact H1|].
      eapply run_step.
      { apply (fire_complete_at _ (inflight w) AwaitUpload []);
          reflexivity. }
      eapply run_step.
      { apply (fire_complete_at _ (inflight w) AwaitFiles [AwaitTimeout]);
          [cbn; rewrite app_nil_r, <- app_assoc; reflexivity | reflexivity]. }
      reflexivity.
    + cbn. repeat split.
Qed.

Lemma upload_refresh_timer_scenario_witness :
  exists w',
    run (upload_scenario 0 SampleUpload.laps Sample.files_ab)
        SampleUpload.file_manager = Some w' /\
    files (ui w') = Sample.files_ab /\
    uploadStatus (ui w') = "".
Proof.
  destruct (upload_refresh_timer_scenario SampleUpload.laps Sample.files_ab
              SampleUpload.file_manager eq_refl)
    as [[w' [Hrun [Hf [Hs _]]]] _].
  exists w'. split; [exact Hrun|]. split; assumption.
Defined.

(** X19.  A snapshot refresh followed by its insights: with the fetch
    button enabled, a success reply and then the insights reply leave the
    snapshot and the insight cards as the server sent them, [loading]
    off and the banner clear, with nothing left in flight from the
    scenario. *)
Theorem snapshot_then_insights_scenario : forall snapshot cards w,
  loading (ui w) = false ->
  fd_success snapshot = true ->
  exists w',
    run (refresh_scenario (length (inflight w)) snapshot cards) w = Some w' /\
    f1Data (ui w') = fd_data snapshot /\
    insights (ui w') = cards /\
    loading (ui w') = false /\
    error (ui w') = None /\
    inflight w' = inflight w /\
    trace w' = (trace w ++ [Fetch PostFetchData; Fetch GetInsights])%list.
Proof.
  intros snapshot cards w Hl Hs.
  assert (H1 : fire ClickFetch w = Some (fetchF1Data w)).
  { unfold fire. rewrite Hl. reflexivity. }
  assert (Hk : fetchF1Data_resume (replied snapshot) =
               (setF1Data (fd_data snapshot) ;; fetchInsights) ;;
               setLoading false).
  { unfold fetchF1Data_resume. cbn. rewrite Hs. reflexivity. }
  eexists. split.
  - unfold refresh_scenario.
    eapply run_step; [exact H1|].
    eapply run_step.
    { apply (fire_complete_at _ (inflight w) AwaitFetchData []);
        reflexivity. }
    rewrite Hk.
    eapply run_step.
    { apply (fire_complete_at _ (inflight w) AwaitInsights []);
        [cbn; rewrite app_nil_r; reflexivity | reflexivity]. }
    reflexivity.
  - cbn. rewrite app_nil_r, <- !app_assoc. repeat split.
Qed.

Lemma snapshot_then_insights_scenario_witness :
  exists w',
    run (refresh_scenario 0
           {| fd_success := true; fd_message := None;
              fd_data := Some SampleSeason.snapshot |} [])
        SampleUpload.file_manager = Some w' /\
    getDriverStandings (ui w') = firstn 10 SampleSeason.twelve.
Proof.
  destruct (snapshot_then_insights_scenario
              {| fd_success := true; fd_message := None;
                 fd_data := Some SampleSeason.snapshot |} []
              SampleUpload.file_manager eq_refl eq_refl)
    as [w' [Hrun [Hd _]]].
  exists w'. split; [exact Hrun|].
  unfold getDriverStandings. rewrite Hd. reflexivity.
Defined.

(** ** The colour of the upload indicator *)

(** X20.  After an upload the indicator is green on success and amber
    when the server refused the file (the text is still
    ["Uploading..."]); when the request threw it is red, except that an
    error message which itself contains ["successful"] turns it green,
    because the colour is chosen by searching the text. *)
Theorem upload_indicator_colour : forall f r w,
  exists w',
    call (handleFileUpload (Some f)) (UploadReply r) w = Some w' /\
    status_color (ui w') =
      Some match body r with
           | Resolved data => if u_success data then "#4ade80" else "#fbbf24"
           | Rejected err =>
               if includes "successful" err then "#4ade80" else "#ef4444"
           end.
Proof.
  intros f r w. eexists. split; [apply call_handleFileUpload|].
  unfold handleFileUpload_resume.
  destruct (body r) as [data|err]; [destruct (u_success data)|].
  - reflexivity.
  - reflexivity.
  - unfold status_color. cbn [ui setUploadStatus update uploadStatus].
    change (String.eqb ("Upload failed: " ++ err) "") with false.
    cbv iota.
    change (includes "successful" ("Upload failed: " ++ err))
      with (includes "successful" err).
    destruct (includes "successful" err); [reflexivity|].
    change (includes "failed" ("Upload failed: " ++ err)) with true.
    reflexivity.
Qed.

Lemma upload_indicator_colour_witness :
  (exists w',
     call (handleFileUpload (Some SampleUpload.laps))
          (UploadReply (replied {| u_success := true |}))
          SampleUpload.file_manager = Some w' /\
     status_color (ui w') = Some "#4ade80") /\
  (exists w',
     call (handleFileUpload (Some SampleUpload.laps))
          (UploadReply (replied SampleUpload.refused))
          SampleUpload.file_manager = Some w' /\
     status_color (ui w') = Some "#fbbf24") /\
  (exists w',
     call (handleFileUpload (Some SampleUpload.laps))
          (UploadReply (Rejected "Failed to fetch"))
          SampleUpload.file_manager = Some w' /\
     status_color (ui w') = Some "#ef4444") /\
  (exists w',
     call (handleFileUpload (Some SampleUpload.laps))
          (UploadReply (Rejected "request unsuccessful"))
          SampleUpload.file_manager = Some w' /\
     status_color (ui w') = Some "#4ade80").
Proof.
  split; [|split; [|split]].
  - exact (upload_indicator_colour SampleUpload.laps
             (replied {| u_success := true |}) SampleUpload.file_manager).
  - exact (upload_indicator_colour SampleUpload.laps
             (replied SampleUpload.refused) SampleUpload.file_manager).
  - exact (upload_indicator_colour SampleUpload.laps
             (Rejected "Failed to fetch") SampleUpload.file_manager).
  - exact (upload_indicator_colour SampleUpload.laps
             (Rejected "request unsuccessful") SampleUpload.file_manager).
Defined.

(** ** What the caches and the indicator can hold *)

Lemma fire_caches_hold_successes : forall e w w',
  fire e w = Some w' -> caches_hold_successes w -> caches_hold_successes w'.
Proof.
  intros e w w' H [Hh Ha]. unfold caches_hold_successes.
  destruct e; step_inv H; try resume_inv;
    unfold_handlers; unfold_resumes; case_split; cbn;
    split; try assumption; try discriminate;
    intros x E; injection E as <-; assumption.
Qed.

(** X21.  In every reachable world a cached historical season and a
    cached file analysis are bodies whose [success] flag is set: a
    refused reply is never stored. *)
Theorem only_success_bodies_are_cached : forall w,
  reachable w ->
  (forall h, historicalData (ui w) = Some h -> h_success h = true) /\
  (forall a, selectedFileAnalysis (ui w) = Some a -> a_success a = true).
Proof.
  apply (reachable_invariant caches_hold_successes).
  - split; intros x E; discriminate E.
  - exact fire_caches_hold_successes.
Qed.

Lemma only_success_bodies_are_cached_witness :
  exists w,
    run [Complete 0 (FilesReply (replied {| fb_files := Sample.files_ab |}));
         ClickTab "files"; ClickAnalyze 1;
         Complete 0 (AnalyzeReply (replied Sample.analysis_a))] mounted
      = Some w /\
    selectedFileAnalysis (ui w) = Some Sample.analysis_a /\
    a_success Sample.analysis_a = true.
Proof.
  destruct (run [Complete 0 (FilesReply
                   (replied {| fb_files := Sample.files_ab |}));
                 ClickTab "files"; ClickAnalyze 1;
                 Complete 0 (AnalyzeReply (replied Sample.analysis_a))]
                mounted) as [w|] eqn:Hrun; [|discriminate Hrun].
  assert (Hw : reachable w) by (eexists; exact Hrun).
  vm_compute in Hrun. injection Hrun as <-.
  eexists. split; [reflexivity|]. split; [reflexivity|].
  exact (proj2 (only_success_bodies_are_cached _ Hw) _ eq_refl).
Defined.

Lemma fire_indicator_text : forall e w w',
  fire e w = Some w' ->
  indicator_text (uploadStatus (ui w)) ->
  indicator_text (uploadStatus (ui w')).
Proof.
  intros e w w' H Inv. unfold indicator_text in *.
  destruct e; step_inv H; try resume_inv;
    unfold_handlers; unfold_resumes; case_split; cbn;
    first [ exact Inv
          | left; reflexivity
          | right; left; reflexivity
          | right; right; left; reflexivity
          | right; right; right; eexists; reflexivity ].
Qed.

(** X22.  In every reachable world the upload indicator carries one of
    four texts: nothing, ["Uploading..."], ["Upload successful!"], or
    ["Upload failed: "] followed by the message of the thrown error. *)
Theorem upload_indicator_texts : forall w,
  reachable w -> indicator_text (uploadStatus (ui w)).
Proof.
  apply (reachable_invariant
           (fun w => indicator_text (uploadStatus (ui w))));
    [left; reflexivity|].
  exact fire_indicator_text.
Qed.

Lemma upload_indicator_texts_witness :
  indicator_text (uploadStatus (ui mounted)).
Proof.
  exact (upload_indicator_texts mounted reachable_mounted).
Defined.

(** ** A delete overtaken by an analyze *)

Lemma filename_of_listed : forall s fileId name,
  filename_of (files s) fileId = Some name -> listed fileId s = true.
Proof.
  intros s fileId name H. unfold filename_of in H. unfold listed.
  destruct (find (fun f => Z.eqb (id f) fileId) (files s)) as [f|] eqn:E;
    [|discriminate].
  apply find_some in E. apply existsb_exists. exists f. exact E.
Qed.

(** X23.  The delete handler decides on what was shown when Delete was
    clicked.  If the analysis shown then belonged to the deleted file,
    and another file is analyzed while the DELETE request is out, the
    returning delete still empties the cache and moves to the file
    manager: the analysis that has just arrived for the other file is
    dropped along with it. *)
Theorem overtaken_delete_drops_newer_analysis :
  forall w doomed other a b name,
    activeTab (ui w) = "files" ->
    selectedFileAnalysis (ui w) = Some a ->
    analysis a <> None ->
    a_filename a = Some name ->
    filename_of (files (ui w)) doomed = Some name ->
    listed other (ui w) = true ->
    is_analyzing other (ui w) = false ->
    a_success b = true ->
    (exists w1,
       run (firstn 3 (overtaken_delete (length (inflight w)) doomed other b)) w
         = Some w1 /\
       selectedFileAnalysis (ui w1) = Some b /\
       activeTab (ui w1) = "file-analysis") /\
    (exists w',
       run (overtaken_delete (length (inflight w)) doomed other b) w
         = Some w' /\
       selectedFileAnalysis (ui w') = None /\
       activeTab (ui w') = "files" /\
       inflight w' = (inflight w ++ [AwaitFiles])%list).
Proof.
  intros w doomed other a b name Hact Ha Hpay Hfn Hname Hother Hbusy Hb.
  assert (Hshow : shows_deleted (Some a) (files (ui w)) doomed = true).
  { unfold shows_deleted. destruct (analysis a); [|congruence].
    apply strict_eq_true. congruence. }
  assert (H1 : fire (ClickDelete doomed true) w
               = Some (deleteFile doomed true w)).
  { unfold fire. rewrite Hact, (filename_of_listed _ _ _ Hname).
    reflexivity. }
  assert (H2 : fire (ClickAnalyze other) (deleteFile doomed true w)
               = Some (analyzeFile other (deleteFile doomed true w))).
  { unfold fire. cbn [ui deleteFile negb await seq emit suspend].
    rewrite Hact, Hother, Hbusy. reflexivity. }
  assert (Hk : analyzeFile_resume (replied b) =
               (setSelectedFileAnalysis (Some b) ;;
                setActiveTab "file-analysis") ;; setAnalyzingFileId None).
  { unfold analyzeFile_resume. cbn. rewrite Hb. reflexivity. }
  assert (H3 : fire (Complete (S (length (inflight w)))
                       (AnalyzeReply (replied b)))
                    (analyzeFile other (deleteFile doomed true w))
               = Some (analyzeFile_resume (replied b)
                   {| ui := ui (analyzeFile other (deleteFile doomed true w));
                      inflight := inflight w ++
                        [AwaitDelete doomed (files (ui w)) (Some a)];
                      trace := trace
                        (analyzeFile other (deleteFile doomed true w)) |})).
  { replace (S (length (inflight w)))
      with (length (inflight w ++
                      [AwaitDelete doomed (files (ui w)) (Some a)]))
      by (rewrite length_app; cbn; lia).
    rewrite (fire_complete_at _ _ (AwaitAnalyze other) [] _
               (analyzeFile_resume (replied b))).
    - rewrite app_nil_r. reflexivity.
    - cbn. rewrite Ha. reflexivity.
    - reflexivity. }
  split.
  - eexists. split.
    + unfold overtaken_delete. cbn [firstn].
      eapply run_step; [exact H1|]. eapply run_step; [exact H2|].
      eapply run_step; [exact H3|]. reflexivity.
    + rewrite Hk. split; reflexivity.
  - eexists. split.
    + unfold overtaken_delete.
      eapply run_step; [exact H1|]. eapply run_step; [exact H2|].
      eapply run_step; [exact H3|]. rewrite Hk.
      eapply run_step.
      { apply (fire_complete_at _ (inflight w)
                 (AwaitDelete doomed (files (ui w)) (Some a)) []);
          reflexivity. }
      reflexivity.
    + unfold deleteFile_resume. rewrite Hshow. cbn.
      rewrite app_nil_r. repeat split.
Qed.

Lemma overtaken_delete_drops_newer_analysis_witness :
  exists w',
    run (overtaken_delete 0 1 2 Sample.analysis_b)
        (setActiveTab "files" (Sample.showing Sample.analysis_a)) = Some w' /\
    selectedFileAnalysis (ui w') = None /\
    activeTab (ui w') = "files".
Proof.
  destruct (overtaken_delete_drops_newer_analysis
              (setActiveTab "files" (Sample.showing Sample.analysis_a))
              1 2 Sample.analysis_a Sample.analysis_b "a.csv")
    as [_ [w' [Hrun [Hc [Ht _]]]]];
    try reflexivity; [discriminate|].
  exists w'. repeat split; assumption.
Defined.

(** ** The list a delete closes over *)






